(** * Nanoleaf integration: the light entity and the pairing flow

    A shallow embedding of
      - [homeassistant/components/nanoleaf/light.py]  (class [NanoleafLight])
      - [homeassistant/components/nanoleaf/config_flow.py]
        (method [async_step_zeroconf_confirm])
    together with the properties the specification states about them.

    Python numbers are kept as the code has them: integers are [Z], the
    literal [2.55] and every value produced by [/] or [*] with it is a
    binary64 [float]; [int(...)] truncates towards zero.  The device client
    ([pynanoleaf.Nanoleaf]) is outside the repository: the calls made on it
    are recorded, in order, in a trace. *)

From Stdlib Require Import ZArith Ascii String List.
From Stdlib Require Import Floats.PrimFloat Floats.SpecFloat Floats.FloatOps.
From stdpp Require Import base option list strings pretty gmap.

(* 2.55 is not a binary64 value: the literal denotes the nearest one, as in
   Python. *)
Set Warnings "-inexact-float".

Local Open Scope string_scope.
Local Open Scope Z_scope.
Local Open Scope list_scope.

(** ** Python values and exceptions *)

(** The exceptions that the modelled code raises, lets through or catches. *)
Inductive PyExn : Type :=
| ValueError (msg : string)
| OverflowError (msg : string)
| TypeError (msg : string)
| KeyError (key : string)
| Unavailable (msg : string)              (* pynanoleaf.Unavailable *)
| NotAuthorizingNewTokens (msg : string)  (* pynanoleaf.NotAuthorizingNewTokens *)
| InvalidToken (msg : string).            (* pynanoleaf.InvalidToken *)

(** [float(z)]: the conversion Python applies to the integer operand of
    [z * 2.55] and [z / 2.55].  It is exact up to 2^53, which covers both
    brightness ranges; beyond the binary64 range, where Python raises
    [OverflowError], it yields an infinity, on which [int] raises
    [OverflowError] in turn. *)
Definition py_float_of_int (z : Z) : float :=
  SF2Prim (binary_normalize prec emax z 0 false).

(** [int(f)] for a float [f]: truncation towards zero; infinities and NaN
    raise. *)
Definition py_int (f : float) : PyExn + Z :=
  match Prim2SF f with
  | S754_zero _ => inr 0
  | S754_finite s m e =>
      let v := if 0 <=? e then Z.shiftl (Zpos m) e
               else Z.shiftr (Zpos m) (- e) in
      inr (if s then - v else v)
  | S754_infinity _ => inl (OverflowError "cannot convert float infinity to integer")
  | S754_nan => inl (ValueError "cannot convert float NaN to integer")
  end.

(** Truth value of a float, an int and a str in an [if]. *)
Definition truthy_float (f : float) : bool := negb (PrimFloat.eqb f 0%float).
Definition truthy_int (z : Z) : bool := negb (z =? 0).
Definition truthy_str (s : string) : bool :=
  match s with EmptyString => false | String _ _ => true end.

(** [homeassistant.util.color] is not part of the sources at hand: its two
    colour temperature conversions are taken as an interface. *)
Class ColorUtil : Type := {
  color_temperature_mired_to_kelvin : Z -> Z;
  color_temperature_kelvin_to_mired : Z -> Z
}.

(** ** The device client and the calls made on it *)

(** One constructor per attribute assignment or method call that light.py
    performs on [self._light]. *)
Inductive DeviceCall : Type :=
| SetHue (hue : Z)                                  (* _light.hue = .. *)
| SetSaturation (saturation : Z)                    (* _light.saturation = .. *)
| SetColorTemperature (kelvin : Z)                  (* _light.color_temperature = .. *)
| BrightnessTransition (target : Z) (seconds : Z)   (* _light.brightness_transition(..) *)
| SetOn (on : bool)                                 (* _light.on = .. *)
| SetBrightness (brightness : Z)                    (* _light.brightness = .. *)
| SetEffect (effect : string).                      (* _light.effect = .. *)

#[global] Instance DeviceCall_eq_dec : EqDecision DeviceCall.
Proof. solve_decision. Defined.

(** A command: the device calls it has issued, in order, and either the
    exception that stopped it or its result.  An assignment or a method
    call on the client is taken to return normally; what the device answers
    to a read ([info], [authorize]) is an input of the model. *)
Definition Dev (A : Type) : Type := (list DeviceCall * (PyExn + A))%type.

Definition dev_ret {A} (a : A) : Dev A := ([], inr a).
Definition dev_bind {A B} (m : Dev A) (k : A -> Dev B) : Dev B :=
  match m with
  | (calls, inl exn) => (calls, inl exn)
  | (calls, inr a) => let '(calls', r) := k a in (calls ++ calls', r)
  end.

#[global] Instance dev_mret : MRet Dev := @dev_ret.
#[global] Instance dev_mbind : MBind Dev := fun A B k m => dev_bind m k.

Definition call (c : DeviceCall) : Dev unit := ([c], inr tt).
Definition raise {A} (exn : PyExn) : Dev A := ([], inl exn).
Definition lift {A} (r : PyExn + A) : Dev A := ([], r).
Definition calls {A} (m : Dev A) : list DeviceCall := fst m.
Definition outcome {A} (m : Dev A) : PyExn + A := snd m.

(** ** light.py *)

(** The [info] dictionary returned by the device, restricted to the keys
    [update] reads. *)
Record DeviceInfo : Type := {
  firmwareVersion : string;
  manufacturer : string;
  model : string;
  serialNo : string;
  state_brightness_value : Z;
  state_ct_value : Z;
  state_hue_value : Z;
  state_sat_value : Z;
  state_on_value : bool;
  effects_select : string;
  effects_effectsList : list string
}.

(** The attributes of a [NanoleafLight]; [None] is Python's [None].  The
    client handle [_light] is represented by the trace of calls. *)
Record NanoleafLight : Type := {
  _unique_id : option string;
  _available : bool;
  _brightness : option Z;
  _color_temp : option Z;
  _effect : option string;
  _effects_list : option (list string);
  _firmwareVersion : option string;
  _manufacturer : option string;
  _model : option string;
  _name : string;
  _hs_color : option (Z * Z);
  _state : option bool
}.

(** [NanoleafLight.__init__] *)
Definition init (name : string) : NanoleafLight := {|
  _unique_id := None;
  _available := true;
  _brightness := None;
  _color_temp := None;
  _effect := None;
  _effects_list := None;
  _firmwareVersion := None;
  _manufacturer := None;
  _model := None;
  _name := name;
  _hs_color := None;
  _state := None
|}.

(** The properties.  [brightness] is [int(self._brightness * 2.55)]; it
    yields [inl] where Python's [int] raises. *)
Definition available (self : NanoleafLight) : bool := _available self.

Definition scale_to_255 (b : Z) : PyExn + Z :=
  py_int (PrimFloat.mul (py_float_of_int b) 2.55%float).

Definition brightness (self : NanoleafLight) : PyExn + option Z :=
  match _brightness self with
  | Some b =>
      match scale_to_255 b with
      | inr z => inr (Some z)
      | inl exn => inl exn
      end
  | None => inr None
  end.

Definition color_temp `{ColorUtil} (self : NanoleafLight) : option Z :=
  match _color_temp self with
  | Some kelvin => Some (color_temperature_kelvin_to_mired kelvin)
  | None => None
  end.

Definition effect (self : NanoleafLight) : option string := _effect self.
Definition effect_list (self : NanoleafLight) : option (list string) :=
  _effects_list self.
Definition min_mireds (self : NanoleafLight) : Z := 154.
Definition max_mireds (self : NanoleafLight) : Z := 833.
Definition unique_id (self : NanoleafLight) : option string := _unique_id self.
Definition name (self : NanoleafLight) : string := _name self.
Definition is_on (self : NanoleafLight) : option bool := _state self.
Definition hs_color (self : NanoleafLight) : option (Z * Z) := _hs_color self.

Definition ICON_TRIANGLE : string := "mdi:triangle-outline".
Definition ICON_SQUARE : string := "mdi:square-outline".
Definition ICON_HEXAGON : string := "mdi:hexagon-outline".

Definition icon (self : NanoleafLight) : string :=
  if decide (_model self = Some "NL29") then ICON_SQUARE
  else if decide (_model self = Some "NL42") then ICON_HEXAGON
  else ICON_TRIANGLE.

(** The keyword arguments of [turn_on] and [turn_off], as [kwargs.get]
    reads them: [None] when the key is absent.  Brightness and colour
    temperature are ints, hue, saturation and the transition are floats. *)
Record Kwargs : Type := {
  ATTR_BRIGHTNESS : option Z;
  ATTR_HS_COLOR : option (float * float);
  ATTR_COLOR_TEMP : option Z;
  ATTR_EFFECT : option string;
  ATTR_TRANSITION : option float
}.

(** [if x: yes else: no] for an optional argument [x]: [None] and the
    falsy values of its type take the [else] branch. *)
Definition if_truthy {A B} (truthy : A -> bool) (x : option A)
    (yes : A -> B) (no : B) : B :=
  match x with
  | Some a => if truthy a then yes a else no
  | None => no
  end.

(** [int(brightness / 2.55)] *)
Definition scale_to_100 (brightness : Z) : PyExn + Z :=
  py_int (PrimFloat.div (py_float_of_int brightness) 2.55%float).

(** The message of the [ValueError] of [turn_on]. *)
Definition effect_error (effect : string) : PyExn :=
  ValueError (String.append "Attempting to apply effect not in the effect list: '"
                (String.append effect "'")).

(** [effect not in self._effects_list]; a [TypeError] when the list is
    still [None]. *)
Definition not_in_effects_list (effect : string) (self : NanoleafLight)
    : PyExn + bool :=
  match _effects_list self with
  | Some l => inr (negb (bool_decide (effect ∈ l)))
  | None => inl (TypeError "argument of type 'NoneType' is not iterable")
  end.

(** [NanoleafLight.turn_on] *)
Definition turn_on `{ColorUtil} (self : NanoleafLight) (kwargs : Kwargs)
    : Dev unit :=
  let brightness := ATTR_BRIGHTNESS kwargs in
  let hs_color := ATTR_HS_COLOR kwargs in
  let color_temp_mired := ATTR_COLOR_TEMP kwargs in
  let effect := ATTR_EFFECT kwargs in
  let transition := ATTR_TRANSITION kwargs in
  (* a 2-tuple is truthy whatever it holds *)
  match hs_color with
  | Some (hue, saturation) =>
      h ← lift (py_int hue);
      call (SetHue h);;
      s ← lift (py_int saturation);
      call (SetSaturation s)
  | None => mret tt
  end;;
  if_truthy truthy_int color_temp_mired
    (fun mired =>
       call (SetColorTemperature (color_temperature_mired_to_kelvin mired)))
    (mret tt);;
  if_truthy truthy_float transition
    (fun transition =>
       if_truthy truthy_int brightness
         (fun brightness =>
            b ← lift (scale_to_100 brightness);
            t ← lift (py_int transition);
            call (BrightnessTransition b t))
         (t ← lift (py_int transition);
          call (BrightnessTransition 100 t)))
    (call (SetOn true);;
     if_truthy truthy_int brightness
       (fun brightness =>
          b ← lift (scale_to_100 brightness);
          call (SetBrightness b))
       (mret tt));;
  if_truthy truthy_str effect
    (fun effect =>
       missing ← lift (not_in_effects_list effect self);
       if (missing : bool) then raise (effect_error effect)
       else call (SetEffect effect))
    (mret tt).

(** [NanoleafLight.turn_off] *)
Definition turn_off (self : NanoleafLight) (kwargs : Kwargs) : Dev unit :=
  let transition := ATTR_TRANSITION kwargs in
  if_truthy truthy_float transition
    (fun transition =>
       t ← lift (py_int transition);
       call (BrightnessTransition 0 t))
    (call (SetOn false)).

(** A record written by [_LOGGER.error]. *)
Inductive LogRecord : Type :=
| LogError (msg : string).

(** What a run of [update] leaves behind: the entity, the log records it
    wrote and the exception that left the method, if any. *)
Record Updated : Type := {
  entity : NanoleafLight;
  logged : list LogRecord;
  escaped : option PyExn
}.

Definition set_available (self : NanoleafLight) (v : bool) : NanoleafLight := {|
  _unique_id := _unique_id self;
  _available := v;
  _brightness := _brightness self;
  _color_temp := _color_temp self;
  _effect := _effect self;
  _effects_list := _effects_list self;
  _firmwareVersion := _firmwareVersion self;
  _manufacturer := _manufacturer self;
  _model := _model self;
  _name := _name self;
  _hs_color := _hs_color self;
  _state := _state self
|}.

(** [NanoleafLight.update].  [fetched] is what reading [self._light.info]
    gives: the dictionary, or the exception the client raises.  Only
    [Unavailable] is caught. *)
Definition update (self : NanoleafLight) (fetched : PyExn + DeviceInfo)
    : Updated :=
  match fetched with
  | inr info =>
      let effects_list := effects_effectsList info in
      let effect :=
        if bool_decide (effects_select info ∈ effects_list)
        then Some (effects_select info) else None in
      {| entity := {|
           _unique_id := Some (serialNo info);
           _available := true;
           _brightness := Some (state_brightness_value info);
           _color_temp :=
             match effect with
             | None => Some (state_ct_value info)
             | Some _ => None
             end;
           _effect := effect;
           _effects_list := Some effects_list;
           _firmwareVersion := Some (firmwareVersion info);
           _manufacturer := Some (manufacturer info);
           _model := Some (model info);
           _name := _name self;
           _hs_color :=
             match effect with
             | None => Some (state_hue_value info, state_sat_value info)
             | Some _ => None
             end;
           _state := Some (state_on_value info)
         |};
         logged := [];
         escaped := None |}
  | inl (Unavailable err) =>
      {| entity := set_available self false;
         logged := [LogError (String.append "Could not update status for "
                      (String.append (name self)
                         (String.append " (" (String.append err ")"))))];
         escaped := None |}
  | inl exn =>
      {| entity := self; logged := []; escaped := Some exn |}
  end.

(** ** config_flow.py *)

(** The values stored in the discovery dictionary and in an entry. *)
Inductive PyVal : Type :=
| VNone
| VStr (s : string)
| VInt (z : Z).

(** Modelled from the spec: the keys of [homeassistant.const], which is not
    among the sources at hand; the spec names the record fields host, port,
    id, name and token. *)
Definition CONF_HOST : string := "host".
Definition CONF_PORT : string := "port".
Definition CONF_ID : string := "id".
Definition CONF_NAME : string := "name".
Definition CONF_TOKEN : string := "token".

(** [d[key]] *)
Definition getitem (d : gmap string PyVal) (key : string) : PyExn + PyVal :=
  match d !! key with
  | Some v => inr v
  | None => inl (KeyError key)
  end.

(** The client object built by [Nanoleaf(host, port=port)]: no token yet. *)
Record Nanoleaf : Type := {
  nl_host : PyVal;
  nl_port : PyVal;
  nl_token : PyVal
}.

Definition Nanoleaf_new (host port : PyVal) : Nanoleaf :=
  {| nl_host := host; nl_port := port; nl_token := VNone |}.

(** The flow object; [discovery_info] is the dictionary filled by
    [async_step_zeroconf]. *)
Record NanoleafConfigFlow : Type := {
  discovery_info : gmap string PyVal
}.

(** What the framework's [async_show_form] and [async_create_entry] are
    called with. *)
Inductive FlowResult : Type :=
| ShowForm (step_id : string) (description_placeholders : gmap string PyVal)
    (errors : gmap string string)
| CreateEntry (title : PyVal) (data : gmap string PyVal).

(** [_async_show_zeroconf_form] *)
Definition _async_show_zeroconf_form (self : NanoleafConfigFlow)
    (errors : gmap string string) : FlowResult :=
  ShowForm "zeroconf_confirm" (discovery_info self) errors.

(** [_entry_from_data] *)
Definition _entry_from_data (data : gmap string PyVal) : PyExn + FlowResult :=
  match getitem data CONF_NAME with
  | inr title => inr (CreateEntry title data)
  | inl exn => inl exn
  end.

(** The [try] block around [nanoleaf.authorize]: the two pynanoleaf errors
    are turned into an entry of [errors], anything else leaves the method.
    [authorize] is the device's answer: the client with its token set, or
    the exception raised. *)
Definition try_authorize (authorize : Nanoleaf -> PyExn + Nanoleaf)
    (nanoleaf : Nanoleaf) (errors : gmap string string)
    : PyExn + (Nanoleaf * gmap string string) :=
  match authorize nanoleaf with
  | inr nanoleaf' => inr (nanoleaf', errors)
  | inl (NotAuthorizingNewTokens _) =>
      inr (nanoleaf, <["base" := "failed_to_request_token"]> errors)
  | inl (Unavailable _) =>
      inr (nanoleaf, <["base" := "cannot_connect"]> errors)
  | inl exn => inl exn
  end.

(** [NanoleafConfigFlow.async_step_zeroconf_confirm]: the flow object after
    the step, and the result returned or the exception raised.  [data] is
    the same dictionary as [self.discovery_info], so storing the token
    changes the flow object too. *)
Definition async_step_zeroconf_confirm
    (authorize : Nanoleaf -> PyExn + Nanoleaf)
    (self : NanoleafConfigFlow) (user_input : option (gmap string PyVal))
    : NanoleafConfigFlow * (PyExn + FlowResult) :=
  let errors : gmap string string := ∅ in
  match user_input with
  | None => (self, inr (_async_show_zeroconf_form self errors))
  | Some _ =>
      match getitem (discovery_info self) CONF_HOST with
      | inl exn => (self, inl exn)
      | inr host =>
      match getitem (discovery_info self) CONF_PORT with
      | inl exn => (self, inl exn)
      | inr port =>
      let nanoleaf := Nanoleaf_new host port in
      match try_authorize authorize nanoleaf errors with
      | inl exn => (self, inl exn)
      | inr (nanoleaf, errors) =>
          if bool_decide (errors ≠ ∅)
          then (self, inr (_async_show_zeroconf_form self errors))
          else
            let data := <[CONF_TOKEN := nl_token nanoleaf]> (discovery_info self) in
            let self := {| discovery_info := data |} in
            (self, _entry_from_data data)
      end
      end
      end
  end.

(** ** The specification's reading of the brightness scaling *)

(** Python's [round(f)] on a float: the nearest integer, ties to even. *)
Definition py_round (f : float) : PyExn + Z :=
  match Prim2SF f with
  | S754_zero _ => inr 0
  | S754_finite s m e =>
      let v :=
        if 0 <=? e then Z.shiftl (Zpos m) e
        else
          let d := 2 ^ (- e) in
          let q := Zpos m / d in
          let r := Zpos m mod d in
          if 2 * r <? d then q
          else if d <? 2 * r then q + 1
          else if Z.even q then q else q + 1 in
      inr (if s then - v else v)
  | S754_infinity _ => inl (OverflowError "cannot convert float infinity to integer")
  | S754_nan => inl (ValueError "cannot convert float NaN to integer")
  end.

(** The exposed brightness as the specification words it:
    [round(b * 2.55)]. *)
Definition spec_round_to_255 (b : Z) : PyExn + Z :=
  py_round (PrimFloat.mul (py_float_of_int b) 2.55%float).

(** A device report whose stored brightness is [b]; the other fields are
    those of a panel showing a solid colour. *)
Definition report_with_brightness (b : Z) : DeviceInfo := {|
  firmwareVersion := "3.2.0";
  manufacturer := "Nanoleaf";
  model := "NL22";
  serialNo := "S17112A0671";
  state_brightness_value := b;
  state_ct_value := 4000;
  state_hue_value := 120;
  state_sat_value := 50;
  state_on_value := true;
  effects_select := "*Solid*";
  effects_effectsList := ["Rainbow"]
|}.

(** [turn_on(brightness=e)] *)
Definition only_brightness (e : Z) : Kwargs := {|
  ATTR_BRIGHTNESS := Some e;
  ATTR_HS_COLOR := None;
  ATTR_COLOR_TEMP := None;
  ATTR_EFFECT := None;
  ATTR_TRANSITION := None
|}.

(** The device range 0..100, enumerated. *)
Definition device_levels : list Z := map Z.of_nat (seq 0 101).

Definition truncated_level (b : Z) : Z :=
  if b =? 100 then 254 else b * 255 / 100.

Definition check_exposed (b : Z) : bool :=
  match scale_to_255 b, spec_round_to_255 b with
  | inr z, inr r =>
      (z =? truncated_level b) && (r - 1 <=? z) && (z <=? r)
  | _, _ => false
  end.

Definition check_round_trip (b : Z) : bool :=
  match scale_to_255 b with
  | inr e =>
      match scale_to_100 e with
      | inr d => (b - 1 <=? d) && (d <=? b + 1) && ((b =? 0) || truthy_int e)
      | inl _ => false
      end
  | inl _ => false
  end.

(** The exposed-to-device scaling as the specification words it:
    [round(x / 2.55)]. *)
Definition spec_round_to_100 (x : Z) : PyExn + Z :=
  py_round (PrimFloat.div (py_float_of_int x) 2.55%float).

(** ** Keyword arguments with one entry replaced *)

Definition with_brightness (kwargs : Kwargs) (b : option Z) : Kwargs := {|
  ATTR_BRIGHTNESS := b;
  ATTR_HS_COLOR := ATTR_HS_COLOR kwargs;
  ATTR_COLOR_TEMP := ATTR_COLOR_TEMP kwargs;
  ATTR_EFFECT := ATTR_EFFECT kwargs;
  ATTR_TRANSITION := ATTR_TRANSITION kwargs
|}.

Definition with_effect (kwargs : Kwargs) (e : option string) : Kwargs := {|
  ATTR_BRIGHTNESS := ATTR_BRIGHTNESS kwargs;
  ATTR_HS_COLOR := ATTR_HS_COLOR kwargs;
  ATTR_COLOR_TEMP := ATTR_COLOR_TEMP kwargs;
  ATTR_EFFECT := e;
  ATTR_TRANSITION := ATTR_TRANSITION kwargs
|}.

Definition with_transition (kwargs : Kwargs) (t : option float) : Kwargs := {|
  ATTR_BRIGHTNESS := ATTR_BRIGHTNESS kwargs;
  ATTR_HS_COLOR := ATTR_HS_COLOR kwargs;
  ATTR_COLOR_TEMP := ATTR_COLOR_TEMP kwargs;
  ATTR_EFFECT := ATTR_EFFECT kwargs;
  ATTR_TRANSITION := t
|}.

(** [turn_on()] and [turn_off()] without arguments. *)
Definition no_kwargs : Kwargs := {|
  ATTR_BRIGHTNESS := None;
  ATTR_HS_COLOR := None;
  ATTR_COLOR_TEMP := None;
  ATTR_EFFECT := None;
  ATTR_TRANSITION := None
|}.

(** [math.isfinite] holds of the hue and the saturation passed, if any:
    then [int(hue)] and [int(saturation)] do not raise. *)
Definition finite_hs_color (kwargs : Kwargs) : bool :=
  match ATTR_HS_COLOR kwargs with
  | Some (hue, saturation) => is_finite hue && is_finite saturation
  | None => true
  end.

(** ** Kinds of device call *)

Definition is_effect_call (c : DeviceCall) : bool :=
  match c with SetEffect _ => true | _ => false end.

Definition is_brightness_call (c : DeviceCall) : bool :=
  match c with SetBrightness _ => true | _ => false end.

Definition is_ramp_call (c : DeviceCall) : bool :=
  match c with BrightnessTransition _ _ => true | _ => false end.

(** The calls a transition leaves possible: the ramp and the colour, colour
    temperature and effect assignments; neither [on] nor [brightness]. *)
Definition is_ramp_colour_or_effect (c : DeviceCall) : bool :=
  match c with
  | SetHue _ | SetSaturation _ | SetColorTemperature _
  | BrightnessTransition _ _ | SetEffect _ => true
  | SetOn _ | SetBrightness _ => false
  end.

(** Modelled from the spec: [homeassistant.util.color] is not among the
    sources at hand; "the standard reciprocal relation" between kelvin and
    mired, rounded down, is used where a concrete conversion is needed. *)
Definition reciprocal_color_util : ColorUtil := {|
  color_temperature_mired_to_kelvin mired := 1000000 / mired;
  color_temperature_kelvin_to_mired kelvin := 1000000 / kelvin
|}.

(** A light that has been updated once from a panel showing a solid
    colour: its effect list is ["Rainbow"]. *)
Definition polled_light : NanoleafLight :=
  entity (update (init "Shapes") (inr (report_with_brightness 100))).

(** [turn_on(brightness=b, transition=t)] and [turn_off(transition=t)] *)
Definition ramp_kwargs (b : option Z) (t : float) : Kwargs :=
  with_transition (with_brightness no_kwargs b) (Some t).

(** ** A pairing session *)

(** The dictionary [async_step_zeroconf] leaves in [discovery_info] for a
    panel found at 192.168.1.20:16021. *)
Definition discovered_shapes : NanoleafConfigFlow := {|
  discovery_info :=
    <[CONF_HOST := VStr "192.168.1.20"]>
      (<[CONF_PORT := VInt 16021]>
         (<[CONF_ID := VStr "AA:BB:CC:DD:EE:FF"]>
            (<[CONF_NAME := VStr "Shapes 1A2B"]> ∅)))
|}.

(** A device in pairing mode: it hands out the token. *)
Definition device_pairing (token : string) (nanoleaf : Nanoleaf)
    : PyExn + Nanoleaf :=
  inr {| nl_host := nl_host nanoleaf;
         nl_port := nl_port nanoleaf;
         nl_token := VStr token |}.

(** A device that is not in pairing mode, and one that does not answer. *)
Definition device_not_pairing (nanoleaf : Nanoleaf) : PyExn + Nanoleaf :=
  inl (NotAuthorizingNewTokens "403").

Definition device_offline (nanoleaf : Nanoleaf) : PyExn + Nanoleaf :=
  inl (Unavailable "timed out").

(** Every call issued by a command satisfies [P]. *)
Definition all_calls {A} (P : DeviceCall -> bool) (m : Dev A) : Prop :=
  Forall (fun c => P c = true) (calls m).

(** ** Further ranges and kinds of call *)

(** The brightness range of the host, 0..255, enumerated. *)
Definition host_levels : list Z := map Z.of_nat (seq 0 256).

Definition check_scale_to_100 (x : Z) : bool :=
  match scale_to_100 x with
  | inr d => d =? x * 100 / 255
  | inl _ => false
  end.

Definition check_scale_to_255 (b : Z) : bool :=
  match scale_to_255 b with
  | inr e => e =? truncated_level b
  | inl _ => false
  end.

Definition check_reverse_trip (x : Z) : bool :=
  match scale_to_100 x with
  | inr d =>
      match scale_to_255 d with
      | inr e => (x - 3 <=? e) && (e <=? x)
      | inl _ => false
      end
  | inl _ => false
  end.

(** The calls that switch the light on or off or move its brightness in
    time: [on = ..] and [brightness_transition(..)]. *)
Definition is_power_call (c : DeviceCall) : bool :=
  match c with
  | SetOn _ | BrightnessTransition _ _ => true
  | _ => false
  end.

(** The two calls [turn_off] can make. *)
Definition is_off_call (c : DeviceCall) : bool :=
  match c with
  | SetOn false | BrightnessTransition 0 _ => true
  | _ => false
  end.

(** The numbers of a call that the host has validated: brightness in
    0..255 when given, finite hue, saturation and transition. *)
Definition validated (kwargs : Kwargs) : bool :=
  match ATTR_BRIGHTNESS kwargs with
  | Some x => (0 <=? x) && (x <=? 255)
  | None => true
  end
  && finite_hs_color kwargs
  && match ATTR_TRANSITION kwargs with
     | Some t => is_finite t
     | None => true
     end.

(** [turn_on(brightness=200, hs_color=(120.5, 80.2), color_temp=250,
    effect="Rainbow", transition=2.5)] *)
Definition full_kwargs : Kwargs := {|
  ATTR_BRIGHTNESS := Some 200;
  ATTR_HS_COLOR := Some (120.5%float, 80.2%float);
  ATTR_COLOR_TEMP := Some 250;
  ATTR_EFFECT := Some "Rainbow";
  ATTR_TRANSITION := Some 2.5%float
|}.

(** The same call with another hue and saturation. *)
Definition with_hs_color (kwargs : Kwargs) (hs : option (float * float))
    : Kwargs := {|
  ATTR_BRIGHTNESS := ATTR_BRIGHTNESS kwargs;
  ATTR_HS_COLOR := hs;
  ATTR_COLOR_TEMP := ATTR_COLOR_TEMP kwargs;
  ATTR_EFFECT := ATTR_EFFECT kwargs;
  ATTR_TRANSITION := ATTR_TRANSITION kwargs
|}.

(** The [TypeError] of [effect not in None]. *)
Definition effects_list_missing : PyExn :=
  TypeError "argument of type 'NoneType' is not iterable".

(** A device report that selects the effect [select] out of [effects]. *)
Definition report_with_effect (select : string) (effects : list string)
    : DeviceInfo := {|
  firmwareVersion := "3.2.0";
  manufacturer := "Nanoleaf";
  model := "NL42";
  serialNo := "S17112A0671";
  state_brightness_value := 60;
  state_ct_value := 4000;
  state_hue_value := 120;
  state_sat_value := 50;
  state_on_value := true;
  effects_select := select;
  effects_effectsList := effects
|}.

(** ** config_flow.py: the discovery step *)

(** Modelled from the spec: the key [CONF_TYPE] of [homeassistant.const],
    which is not among the sources at hand; the spec names the discovery
    keys host, port, type and name. *)
Definition CONF_TYPE : string := "type".

(** [str(v)], as an f-string formats a value. *)
Definition py_str (v : PyVal) : string :=
  match v with
  | VNone => "None"
  | VStr s => s
  | VInt z => pretty z
  end.

(** [s.replace(old, new)] for a non-empty [old]: the occurrences of [old]
    are replaced from left to right, without overlap.  [skip] counts the
    characters of an occurrence still to be dropped. *)
Fixpoint replace_go (old new : string) (skip : nat) (s : string) : string :=
  match s with
  | EmptyString => EmptyString
  | String c s' =>
      match skip with
      | S k => replace_go old new k s'
      | O =>
          if String.prefix old s
          then String.append new (replace_go old new (String.length old - 1) s')
          else String c (replace_go old new 0 s')
      end
  end.

(** [s.replace(old, new)]; for the empty [old] Python puts [new] before
    every character and at the end. *)
Definition str_replace (s old new : string) : string :=
  match old with
  | EmptyString =>
      String.append new
        (String.concat "" (map (fun c => String c new) (list_ascii_of_string s)))
  | String _ _ => replace_go old new 0 s
  end.

(** The record a zeroconf discovery hands over: its top-level entries and
    the dictionary stored under "properties". *)
Record ZeroconfInfo : Type := {
  zc_entries : gmap string PyVal;
  zc_properties : option (gmap string PyVal)
}.

(** [discovery_info["properties"][key]] *)
Definition property (discovery : ZeroconfInfo) (key : string) : PyExn + PyVal :=
  match zc_properties discovery with
  | Some properties => getitem properties key
  | None => inl (KeyError "properties")
  end.

(** What leaves a step of the flow other than a result: a Python exception,
    the [AttributeError] of a method call on a value that has no such
    method, or the framework's [AbortFlow]. *)
Inductive FlowExn : Type :=
| PyRaise (exn : PyExn)
| AttributeError (msg : string)
| AbortFlow (reason : string).

(** What the discovery step reads from the record before it changes
    anything: host, port, name without the type suffix, and id.  The model
    and the version are read as well, for the log only. *)
Definition read_discovery (discovery : ZeroconfInfo)
    : FlowExn + (PyVal * PyVal * string * PyVal) :=
  match getitem (zc_entries discovery) CONF_HOST with
  | inl exn => inl (PyRaise exn)
  | inr host =>
  match getitem (zc_entries discovery) CONF_PORT with
  | inl exn => inl (PyRaise exn)
  | inr port =>
  match getitem (zc_entries discovery) CONF_TYPE with
  | inl exn => inl (PyRaise exn)
  | inr zctype =>
  match getitem (zc_entries discovery) CONF_NAME with
  | inl exn => inl (PyRaise exn)
  | inr (VStr advertised) =>
      let name := str_replace advertised (String.append "." (py_str zctype)) "" in
      match property discovery "id" with
      | inl exn => inl (PyRaise exn)
      | inr id =>
      match property discovery "md" with
      | inl exn => inl (PyRaise exn)
      | inr model =>
      match property discovery "srcvers" with
      | inl exn => inl (PyRaise exn)
      | inr version => inr (host, port, name, id)
      end
      end
      end
  | inr _ => inl (AttributeError "object has no attribute 'replace'")
  end
  end
  end
  end.

(** What a run of [async_step_zeroconf] leaves behind: the flow object, the
    unique id handed to the framework, the title placeholders put into the
    flow's context, and the result or what was raised. *)
Record Discovered : Type := {
  flow : NanoleafConfigFlow;
  unique_id_set : option PyVal;
  title_placeholders : option (gmap string PyVal);
  step : FlowExn + FlowResult
}.

(** [NanoleafConfigFlow.async_step_zeroconf].  [duplicate id] stands for
    the framework's [async_set_unique_id] followed by
    [_abort_if_unique_id_configured], which are not among the sources at
    hand: it is the reason of the [AbortFlow] they raise for [id], if they
    do. *)
Definition async_step_zeroconf
    (duplicate : PyVal -> option string)
    (authorize : Nanoleaf -> PyExn + Nanoleaf)
    (self : NanoleafConfigFlow) (discovery : ZeroconfInfo) : Discovered :=
  match read_discovery discovery with
  | inl exn =>
      {| flow := self; unique_id_set := None; title_placeholders := None;
         step := inl exn |}
  | inr (host, port, name, id) =>
      (* self.discovery_info.update({...}) *)
      let info :=
        <[CONF_HOST := host]>
          (<[CONF_PORT := port]>
             (<[CONF_ID := id]>
                (<[CONF_NAME := VStr name]> (discovery_info self)))) in
      let self := {| discovery_info := info |} in
      match duplicate id with
      | Some reason =>
          {| flow := self; unique_id_set := Some id;
             title_placeholders := None; step := inl (AbortFlow reason) |}
      | None =>
          let '(self, result) := async_step_zeroconf_confirm authorize self None in
          {| flow := self; unique_id_set := Some id;
             title_placeholders := Some info;
             step := match result with
                     | inr r => inr r
                     | inl exn => inl (PyRaise exn)
                     end |}
      end
  end.

(** [NanoleafConfigFlow.__init__] *)
Definition new_flow : NanoleafConfigFlow := {| discovery_info := ∅ |}.

(** A discovery record as a panel advertises itself. *)
Definition shapes_advert : ZeroconfInfo := {|
  zc_entries :=
    <[CONF_HOST := VStr "192.168.1.20"]>
      (<[CONF_PORT := VInt 16021]>
         (<[CONF_TYPE := VStr "_nanoleafapi._tcp.local."]>
            (<[CONF_NAME := VStr "Shapes 1A2B._nanoleafapi._tcp.local."]> ∅)));
  zc_properties :=
    Some (<["id" := VStr "AA:BB:CC:DD:EE:FF"]>
            (<["md" := VStr "NL42"]> (<["srcvers" := VStr "5.1.0"]> ∅)))
|}.

(** The character [c] does not occur in [s]. *)
Fixpoint free_of (c : Ascii.ascii) (s : string) : bool :=
  match s with
  | EmptyString => true
  | String c' s' => negb (Ascii.eqb c c') && free_of c s'
  end.

(** A discovery record without the version property. *)
Definition advert_without_version : ZeroconfInfo := {|
  zc_entries := zc_entries shapes_advert;
  zc_properties :=
    Some (<["id" := VStr "AA:BB:CC:DD:EE:FF"]> (<["md" := VStr "NL42"]> ∅))
|}.

(** ** __init__.py and the platform set-up of light.py *)

(** [.const] is not among the sources at hand: the domain, the platforms
    and the two keys of the per-entry dictionary are taken as an
    interface. *)
Class Const : Type := {
  DOMAIN : string;
  PLATFORMS : list string;
  DATA_NAME : string;
  DATA_NANOLEAF : string
}.

(** A config entry, as far as the code reads it. *)
Record ConfigEntry : Type := {
  entry_id : string;
  data : gmap string PyVal
}.

(** The values of the per-entry dictionary: the client and the name. *)
Inductive EntryDatum : Type :=
| ClientDatum (nanoleaf : Nanoleaf)
| NameDatum (name : PyVal).

(** The host application, as far as the code touches it: [hass.data], a
    dictionary per domain that maps entry ids to per-entry dictionaries,
    and the platform set-ups scheduled with
    [async_forward_entry_setup(config, platform)], oldest first. *)
Record HomeAssistant : Type := {
  hass_data : gmap string (gmap string (gmap string EntryDatum));
  forwarded : list (string * string)
}.

(** [async_setup]: [hass.data.setdefault(DOMAIN, {})], then [True]. *)
Definition async_setup `{Const} (hass : HomeAssistant) : HomeAssistant * bool :=
  ({| hass_data :=
        match hass_data hass !! DOMAIN with
        | Some _ => hass_data hass
        | None => <[DOMAIN := ∅]> (hass_data hass)
        end;
      forwarded := forwarded hass |},
   true).

(** [Nanoleaf(host, port=port, token=token)] *)
Definition Nanoleaf_with_token (host port token : PyVal) : Nanoleaf :=
  {| nl_host := host; nl_port := port; nl_token := token |}.

(** The four lookups that open [async_setup_entry] and
    [async_remove_entry], in the order of the code. *)
Definition read_config (config : ConfigEntry)
    : PyExn + (PyVal * PyVal * PyVal * PyVal) :=
  match getitem (data config) CONF_NAME with
  | inl exn => inl exn
  | inr name =>
  match getitem (data config) CONF_HOST with
  | inl exn => inl exn
  | inr host =>
  match getitem (data config) CONF_PORT with
  | inl exn => inl exn
  | inr port =>
  match getitem (data config) CONF_TOKEN with
  | inl exn => inl exn
  | inr token => inr (name, host, port, token)
  end
  end
  end
  end.

(** [async_setup_entry] of [__init__.py] *)
Definition async_setup_entry `{Const} (hass : HomeAssistant)
    (config : ConfigEntry) : HomeAssistant * (PyExn + bool) :=
  match read_config config with
  | inl exn => (hass, inl exn)
  | inr (name, host, port, token) =>
      let nanoleaf := Nanoleaf_with_token host port token in
      (* hass.data[DOMAIN][config.entry_id] = {...} *)
      match hass_data hass !! DOMAIN with
      | None => (hass, inl (KeyError DOMAIN))
      | Some entries =>
          let entry :=
            <[DATA_NAME := NameDatum name]>
              (<[DATA_NANOLEAF := ClientDatum nanoleaf]> ∅) in
          ({| hass_data :=
                <[DOMAIN := <[entry_id config := entry]> entries]>
                  (hass_data hass);
              forwarded :=
                forwarded hass
                ++ map (fun platform => (entry_id config, platform)) PLATFORMS |},
           inr true)
      end
  end.

Module Light.

(** [async_setup_entry] of [light.py]: the arguments of the one
    [NanoleafLight(nanoleaf, name)] handed to [async_add_entities], and
    its flag [update_before_add]. *)
Definition async_setup_entry `{Const} (hass : HomeAssistant)
    (config : ConfigEntry)
    : PyExn + (list (EntryDatum * EntryDatum) * bool) :=
  match hass_data hass !! DOMAIN with
  | None => inl (KeyError DOMAIN)
  | Some entries =>
      match entries !! entry_id config with
      | None => inl (KeyError (entry_id config))
      | Some entry =>
          match entry !! DATA_NANOLEAF with
          | None => inl (KeyError DATA_NANOLEAF)
          | Some nanoleaf =>
              match entry !! DATA_NAME with
              | None => inl (KeyError DATA_NAME)
              | Some name => inr ([(nanoleaf, name)], true)
              end
          end
      end
  end.

End Light.

(** The two error records of [async_remove_entry]. *)
Definition unregister_failed (name host port token : PyVal) (why : string)
    : LogRecord :=
  LogError
    (String.concat ""
       ["Failed to unregister token from Nanoleaf "; py_str name;
        " with token "; py_str token; ". "; why;
        " Try calling DELETE http://"; py_str host; ":"; py_str port;
        "/api/v1/"; py_str token; " manually."]).

(** What a run of [async_remove_entry] leaves behind. *)
Record Removed : Type := {
  removal_log : list LogRecord;
  removal_escaped : option PyExn
}.

(** [async_remove_entry].  [delete_token] is the device's answer to
    [nanoleaf.delete_token()]: nothing, or the exception raised.
    [InvalidToken] and [Unavailable] are caught and logged. *)
Definition async_remove_entry (delete_token : Nanoleaf -> PyExn + unit)
    (config : ConfigEntry) : Removed :=
  match read_config config with
  | inl exn => {| removal_log := []; removal_escaped := Some exn |}
  | inr (name, host, port, token) =>
      let nanoleaf := Nanoleaf_with_token host port token in
      match delete_token nanoleaf with
      | inr _ => {| removal_log := []; removal_escaped := None |}
      | inl (InvalidToken _) =>
          {| removal_log :=
               [unregister_failed name host port token "Token is invalid."];
             removal_escaped := None |}
      | inl (Unavailable _) =>
          {| removal_log :=
               [unregister_failed name host port token
                  "The device is unavailable."];
             removal_escaped := None |}
      | inl exn => {| removal_log := []; removal_escaped := Some exn |}
      end
  end.

(** The constants as an installation has them. *)
Definition nanoleaf_const : Const := {|
  DOMAIN := "nanoleaf";
  PLATFORMS := ["light"];
  DATA_NAME := "name";
  DATA_NANOLEAF := "nanoleaf"
|}.

(** The entry the pairing of [discovered_shapes] creates. *)
Definition shapes_entry : ConfigEntry := {|
  entry_id := "0a1b2c";
  data := <[CONF_TOKEN := VStr "s3cr3t"]> (discovery_info discovered_shapes)
|}.

(** A host application that holds nothing yet. *)
Definition empty_hass : HomeAssistant := {| hass_data := ∅; forwarded := [] |}.

(** An entry whose token has been lost. *)
Definition entry_without_token : ConfigEntry := {|
  entry_id := "0a1b2c";
  data := discovery_info discovered_shapes
|}.

(** The same call with another colour temperature. *)
Definition with_color_temp (kwargs : Kwargs) (mired : option Z) : Kwargs := {|
  ATTR_BRIGHTNESS := ATTR_BRIGHTNESS kwargs;
  ATTR_HS_COLOR := ATTR_HS_COLOR kwargs;
  ATTR_COLOR_TEMP := mired;
  ATTR_EFFECT := ATTR_EFFECT kwargs;
  ATTR_TRANSITION := ATTR_TRANSITION kwargs
|}.

(** * Properties *)

(** ** Brightness scaling *)

Lemma device_levels_complete (b : Z) : 0 <= b <= 100 -> In b device_levels.
Proof.
  intros Hb. unfold device_levels.
  rewrite <- (Z2Nat.id b) by lia.
  apply in_map, in_seq. lia.
Qed.

(** A property checked on every level holds on the whole range. *)
Lemma by_levels (check : Z -> bool) :
  forallb check device_levels = true ->
  forall b, 0 <= b <= 100 -> check b = true.
Proof.
  intros Hall b Hb.
  apply (proj1 (forallb_forall check device_levels) Hall).
  now apply device_levels_complete.
Qed.

Lemma check_exposed_all : forallb check_exposed device_levels = true.
Proof. vm_compute. reflexivity. Qed.

Lemma brightness_after_update (self : NanoleafLight) (info : DeviceInfo) :
  brightness (entity (update self (inr info)))
  = match scale_to_255 (state_brightness_value info) with
    | inr z => inr (Some z)
    | inl exn => inl exn
    end.
Proof. reflexivity. Qed.

(** C2, as the code has it: after a successful update that cached a device
    brightness [b] in 0..100, the [brightness] property is
    [int(b * 2.55)], the binary64 product truncated: it is the integer
    quotient [255 * b / 100] for [b < 100] and 254 for [b = 100], and it
    is either [round(b * 2.55)] or one below it. *)
Theorem brightness_is_truncated_scaling
    (self : NanoleafLight) (info : DeviceInfo) (b : Z) :
  state_brightness_value info = b ->
  0 <= b <= 100 ->
  brightness (entity (update self (inr info))) = inr (Some (truncated_level b))
  /\ exists r, spec_round_to_255 b = inr r
               /\ r - 1 <= truncated_level b <= r.
Proof.
  intros Hinfo Hb.
  rewrite brightness_after_update, Hinfo.
  pose proof (by_levels check_exposed check_exposed_all b Hb) as Hc.
  unfold check_exposed in Hc.
  destruct (scale_to_255 b) as [|z]; [discriminate|].
  destruct (spec_round_to_255 b) as [|r]; [discriminate|].
  apply andb_prop in Hc as [Hc Hle]. apply andb_prop in Hc as [Heq Hge].
  apply Z.eqb_eq in Heq. apply Z.leb_le in Hge, Hle.
  subst z. split; [reflexivity|].
  exists r. split; [reflexivity|lia].
Qed.

Lemma brightness_is_truncated_scaling_witness :
  brightness (entity (update (init "Shapes") (inr (report_with_brightness 40))))
  = inr (Some 102)
  /\ exists r, spec_round_to_255 40 = inr r /\ r - 1 <= 102 <= r.
Proof.
  apply (brightness_is_truncated_scaling (init "Shapes")
           (report_with_brightness 40) 40); [reflexivity | lia].
Defined.

(** C2 as stated fails: a stored brightness of 1 is exposed as 2, while
    [round(1 * 2.55)] is 3 (and 100 is exposed as 254, not 255). *)
Lemma brightness_is_not_rounded :
  let self := entity (update (init "Shapes") (inr (report_with_brightness 1))) in
  0 <= 1 <= 100
  /\ _brightness self = Some 1
  /\ brightness self = inr (Some 2)
  /\ spec_round_to_255 1 = inr 3
  /\ brightness self <> match spec_round_to_255 1 with
                        | inr r => inr (Some r)
                        | inl exn => inl exn
                        end.
Proof.
  cbn zeta. split; [lia|]. split; [reflexivity|].
  split; [vm_compute; reflexivity|].
  split; [vm_compute; reflexivity|].
  vm_compute. discriminate.
Qed.

Lemma check_round_trip_all : forallb check_round_trip device_levels = true.
Proof. vm_compute. reflexivity. Qed.

(** C3: for a device brightness [b] in 0..100 cached by an update, the
    exposed value [e] is mapped back by [turn_on]'s [int(e / 2.55)] to a
    device value [d] within 1 of [b]; for [b > 0] that [d] is the
    brightness [turn_on(brightness=e)] assigns on the device. *)
Theorem brightness_round_trip `{ColorUtil}
    (self : NanoleafLight) (info : DeviceInfo) (b : Z) :
  state_brightness_value info = b ->
  0 <= b <= 100 ->
  let self' := entity (update self (inr info)) in
  exists e d,
    brightness self' = inr (Some e)
    /\ scale_to_100 e = inr d
    /\ b - 1 <= d <= b + 1
    /\ (0 < b ->
        turn_on self' (only_brightness e)
        = ([SetOn true; SetBrightness d], inr tt)).
Proof.
  intros Hinfo Hb. cbn zeta.
  rewrite brightness_after_update, Hinfo.
  pose proof (by_levels check_round_trip check_round_trip_all b Hb) as Hc.
  unfold check_round_trip in Hc.
  destruct (scale_to_255 b) as [|e]; [discriminate|].
  destruct (scale_to_100 e) as [|d] eqn:Hd; [discriminate|].
  apply andb_prop in Hc as [Hc Hnz]. apply andb_prop in Hc as [Hlo Hhi].
  apply Z.leb_le in Hlo, Hhi.
  exists e, d. split; [reflexivity|]. split; [exact Hd|].
  split; [lia|]. intros Hpos.
  apply orb_prop in Hnz as [Hzero|Hnz]; [apply Z.eqb_eq in Hzero; lia|].
  unfold turn_on, only_brightness, if_truthy. cbn.
  rewrite Hnz, Hd. reflexivity.
Qed.

Lemma brightness_round_trip_witness :
  let self' :=
    entity (update (init "Shapes") (inr (report_with_brightness 100))) in
  exists e d,
    brightness self' = inr (Some e)
    /\ scale_to_100 e = inr d
    /\ 100 - 1 <= d <= 100 + 1
    /\ (0 < 100 ->
        turn_on (H := reciprocal_color_util) self' (only_brightness e)
        = ([SetOn true; SetBrightness d], inr tt)).
Proof.
  apply (brightness_round_trip (H := reciprocal_color_util) (init "Shapes")
           (report_with_brightness 100) 100); [reflexivity | lia].
Defined.

(** ** Commands: the trace and the outcome of a sequence *)

Lemma calls_bind {A B} (m : Dev A) (k : A -> Dev B) :
  calls (m ≫= k)
  = match outcome m with
    | inr a => calls m ++ calls (k a)
    | inl _ => calls m
    end.
Proof.
  destruct m as [tr [exn|a]]; cbn; [reflexivity|].
  destruct (k a); reflexivity.
Qed.

Lemma outcome_bind {A B} (m : Dev A) (k : A -> Dev B) :
  outcome (m ≫= k)
  = match outcome m with
    | inr a => outcome (k a)
    | inl exn => inl exn
    end.
Proof.
  destruct m as [tr [exn|a]]; cbn; [reflexivity|].
  destruct (k a); reflexivity.
Qed.

Lemma all_calls_bind {A B} P (m : Dev A) (k : A -> Dev B) :
  all_calls P m -> (forall a, all_calls P (k a)) -> all_calls P (m ≫= k).
Proof.
  unfold all_calls. intros Hm Hk. rewrite calls_bind.
  destruct (outcome m) as [exn|a]; [assumption|].
  apply Forall_app. split; [assumption|apply Hk].
Qed.

Lemma all_calls_ret {A} P (a : A) : all_calls P (mret a).
Proof. constructor. Qed.

Lemma all_calls_lift {A} P (r : PyExn + A) : all_calls P (lift r).
Proof. constructor. Qed.

Lemma all_calls_raise {A} P exn : all_calls P (@raise A exn).
Proof. constructor. Qed.

Lemma all_calls_call P c : P c = true -> all_calls P (call c).
Proof. intros Hc. repeat constructor. exact Hc. Qed.

Lemma all_calls_if_truthy {A B} P truthy (x : option A) (yes : A -> Dev B) no :
  (forall a, x = Some a -> truthy a = true -> all_calls P (yes a)) ->
  (if_truthy truthy x (fun _ => false) true = true -> all_calls P no) ->
  all_calls P (if_truthy truthy x yes no).
Proof.
  intros Hyes Hno. destruct x as [a|]; cbn in *; [|auto].
  destruct (truthy a) eqn:Ht; auto.
Qed.

Ltac step_calls :=
  repeat first
    [ apply all_calls_bind; [|intros ?]
    | apply all_calls_if_truthy; intros
    | apply all_calls_ret | apply all_calls_lift | apply all_calls_raise
    | apply all_calls_call; reflexivity ].

(** ** turn_on and the transition *)

(** C9: with a transition that is not zero, [turn_on] issues only the
    brightness ramp and the hue, saturation, colour temperature and effect
    assignments: neither [on = True] nor [brightness = ..]; so an [on]
    assignment in the trace means the call took the path without
    transition. *)
Theorem turn_on_transition_never_switches_on `{ColorUtil}
    (self : NanoleafLight) (kwargs : Kwargs) :
  (forall t, ATTR_TRANSITION kwargs = Some t -> truthy_float t = true ->
     all_calls is_ramp_colour_or_effect (turn_on self kwargs)
     /\ SetOn true ∉ calls (turn_on self kwargs))
  /\ (SetOn true ∈ calls (turn_on self kwargs) ->
        if_truthy truthy_float (ATTR_TRANSITION kwargs) (fun _ => true) false
        = false).
Proof.
  assert (Hall : forall t, ATTR_TRANSITION kwargs = Some t ->
            truthy_float t = true ->
            all_calls is_ramp_colour_or_effect (turn_on self kwargs)).
  { intros t Ht Htruthy. unfold turn_on. rewrite Ht.
    apply all_calls_bind; [|intros _].
    { destruct (ATTR_HS_COLOR kwargs) as [[hue saturation]|]; step_calls. }
    apply all_calls_bind; [|intros _].
    { apply all_calls_if_truthy; intros; step_calls. }
    apply all_calls_bind; [|intros _].
    { cbn [if_truthy]. rewrite Htruthy.
      apply all_calls_if_truthy; intros; step_calls. }
    apply all_calls_if_truthy; intros; step_calls.
    match goal with |- all_calls _ (if ?b then _ else _) => destruct b end;
      step_calls. }
  assert (Hnot : forall t, ATTR_TRANSITION kwargs = Some t ->
            truthy_float t = true ->
            SetOn true ∉ calls (turn_on self kwargs)).
  { intros t Ht Htruthy Hin.
    pose proof (Hall t Ht Htruthy) as HF. unfold all_calls in HF.
    rewrite Forall_forall in HF. apply HF in Hin. discriminate. }
  split.
  - intros t Ht Htruthy. split; eauto.
  - intros Hin. destruct (ATTR_TRANSITION kwargs) as [t|] eqn:Ht; [|reflexivity].
    cbn. destruct (truthy_float t) eqn:Htruthy; [|reflexivity].
    exfalso. exact (Hnot t eq_refl Htruthy Hin).
Qed.

Lemma turn_on_transition_never_switches_on_witness :
  let kwargs := with_effect (ramp_kwargs (Some 128) 5%float) (Some "Rainbow") in
  all_calls is_ramp_colour_or_effect
    (turn_on (H := reciprocal_color_util) polled_light kwargs)
  /\ SetOn true ∉ calls (turn_on (H := reciprocal_color_util) polled_light kwargs).
Proof.
  cbn zeta.
  apply (proj1 (turn_on_transition_never_switches_on
                  (H := reciprocal_color_util) polled_light
                  (with_effect (ramp_kwargs (Some 128) 5%float) (Some "Rainbow")))
           5%float); reflexivity.
Defined.

(** [int] is defined on every finite float. *)
Lemma py_int_finite (f : float) :
  is_finite f = true -> exists z, py_int f = inr z.
Proof.
  unfold is_finite, py_int, Prim2SF. intros Hf.
  destruct (is_nan f); [discriminate|].
  destruct (is_infinity f); [discriminate|].
  destruct (is_zero f); [eauto|].
  destruct (Z.frexp f) as [r e].
  destruct (shr_fexp _ _ _ _ _) as [shr e'].
  destruct (shr_m shr); eauto.
Qed.

Lemma scale_to_100_128 : scale_to_100 128 = inr 50.
Proof. vm_compute. reflexivity. Qed.

Lemma spec_round_to_100_128 : spec_round_to_100 128 = inr 50.
Proof. vm_compute. reflexivity. Qed.

(** The ramp of [turn_on]: with a transition [t] that is not zero, finite
    hue and saturation and [int(t) = d], exactly one ramp is commanded; its
    target is 100 when the brightness is absent or 0, and
    [int(brightness / 2.55)] otherwise. *)
Lemma turn_on_ramps `{ColorUtil} (self : NanoleafLight) (kwargs : Kwargs)
    (t : float) (d : Z) :
  ATTR_TRANSITION kwargs = Some t ->
  truthy_float t = true ->
  py_int t = inr d ->
  finite_hs_color kwargs = true ->
  filter (fun c => is_ramp_call c = true) (calls (turn_on self kwargs))
  = match if_truthy truthy_int (ATTR_BRIGHTNESS kwargs)
            (fun b => scale_to_100 b) (inr 100) with
    | inr target => [BrightnessTransition target d]
    | inl _ => []
    end.
Proof.
  intros Ht Htruthy Hd Hfin. unfold turn_on, finite_hs_color, if_truthy in *.
  rewrite Ht, Htruthy.
  assert (Hhs : ATTR_HS_COLOR kwargs = None
                \/ exists hue saturation h s,
                     ATTR_HS_COLOR kwargs = Some (hue, saturation)
                     /\ py_int hue = inr h /\ py_int saturation = inr s).
  { destruct (ATTR_HS_COLOR kwargs) as [[hue saturation]|]; [right|now left].
    apply andb_prop in Hfin as [Hh Hs].
    destruct (py_int_finite hue Hh) as [h Hh'].
    destruct (py_int_finite saturation Hs) as [s Hs'].
    now exists hue, saturation, h, s. }
  destruct Hhs as [->|(hue & saturation & h & s & -> & -> & ->)];
    rewrite ?Hd;
    (destruct (ATTR_COLOR_TEMP kwargs) as [m|]; [destruct (truthy_int m)|]);
    (destruct (ATTR_BRIGHTNESS kwargs) as [b|];
       [destruct (truthy_int b); [destruct (scale_to_100 b)|]|]);
    (destruct (ATTR_EFFECT kwargs) as [e|];
       [destruct (truthy_str e);
          [destruct (not_in_effects_list e self) as [|[|]]|]|]);
    rewrite ?Hd; reflexivity.
Qed.

(** C6, as the code has it: when [turn_on] is given a transition [t] that
    is not zero (with [t], the hue and the saturation finite), the device is
    commanded exactly one ramp, over [int(t)] seconds: to 100 when no
    brightness is given, and to [int(128 / 2.55)] = [round(128 / 2.55)] = 50
    when the brightness is 128. *)
Theorem turn_on_transition_ramps `{ColorUtil}
    (self : NanoleafLight) (kwargs : Kwargs) (t : float) :
  ATTR_TRANSITION kwargs = Some t ->
  truthy_float t = true ->
  is_finite t = true ->
  finite_hs_color kwargs = true ->
  exists d, py_int t = inr d
    /\ (ATTR_BRIGHTNESS kwargs = None ->
        filter (fun c => is_ramp_call c = true) (calls (turn_on self kwargs))
        = [BrightnessTransition 100 d])
    /\ (ATTR_BRIGHTNESS kwargs = Some 128 ->
        filter (fun c => is_ramp_call c = true) (calls (turn_on self kwargs))
        = [BrightnessTransition 50 d]
        /\ spec_round_to_100 128 = inr 50).
Proof.
  intros Ht Htruthy Hfin Hhs.
  destruct (py_int_finite t Hfin) as [d Hd]. exists d.
  split; [exact Hd|].
  pose proof (turn_on_ramps self kwargs t d Ht Htruthy Hd Hhs) as Hramp.
  split; intros Hb; rewrite Hb in Hramp; cbn [if_truthy] in Hramp.
  - exact Hramp.
  - change (truthy_int 128) with true in Hramp. cbv iota in Hramp.
    rewrite scale_to_100_128 in Hramp.
    split; [exact Hramp|exact spec_round_to_100_128].
Qed.

Lemma turn_on_transition_ramps_witness :
  exists d, py_int 5%float = inr d
    /\ (ATTR_BRIGHTNESS (ramp_kwargs (Some 128) 5%float) = None ->
        filter (fun c => is_ramp_call c = true)
          (calls (turn_on (H := reciprocal_color_util) polled_light
                    (ramp_kwargs (Some 128) 5%float)))
        = [BrightnessTransition 100 d])
    /\ (ATTR_BRIGHTNESS (ramp_kwargs (Some 128) 5%float) = Some 128 ->
        filter (fun c => is_ramp_call c = true)
          (calls (turn_on (H := reciprocal_color_util) polled_light
                    (ramp_kwargs (Some 128) 5%float)))
        = [BrightnessTransition 50 d]
        /\ spec_round_to_100 128 = inr 50).
Proof.
  apply (turn_on_transition_ramps (H := reciprocal_color_util) polled_light
           (ramp_kwargs (Some 128) 5%float) 5%float); reflexivity.
Defined.

(** C6 as stated fails: a transition of 0 is a transition duration given,
    and the device is switched on at once; no ramp is commanded. *)
Lemma turn_on_zero_transition_does_not_ramp :
  let kwargs := ramp_kwargs None 0%float in
  ATTR_TRANSITION kwargs = Some 0%float
  /\ ATTR_BRIGHTNESS kwargs = None
  /\ turn_on (H := reciprocal_color_util) polled_light kwargs
     = ([SetOn true], inr tt)
  /\ forall d, BrightnessTransition 100 d
               ∉ calls (turn_on (H := reciprocal_color_util) polled_light kwargs).
Proof.
  cbn zeta. repeat split.
  intros d Hin. vm_compute in Hin.
  apply list_elem_of_singleton in Hin. discriminate.
Qed.

(** ** turn_off *)

(** C7, as the code has it: given a transition [t] that is not zero,
    [turn_off] commands a ramp to 0 over [int(t)] seconds and nothing else
    (if [int(t)] raises, nothing at all); in no such case does it assign
    [on = False].  Without a transition it assigns [on = False]. *)
Theorem turn_off_ramps_or_switches (self : NanoleafLight) (kwargs : Kwargs) :
  (forall t, ATTR_TRANSITION kwargs = Some t -> truthy_float t = true ->
     (SetOn false ∉ calls (turn_off self kwargs))
     /\ forall d, py_int t = inr d ->
          turn_off self kwargs = ([BrightnessTransition 0 d], inr tt))
  /\ (ATTR_TRANSITION kwargs = None ->
        turn_off self kwargs = ([SetOn false], inr tt)).
Proof.
  unfold turn_off, if_truthy. split.
  - intros t -> ->. split.
    + destruct (py_int t) as [exn|d]; cbn; intros Hin.
      * apply elem_of_nil in Hin. exact Hin.
      * apply list_elem_of_singleton in Hin. discriminate.
    + intros d ->. reflexivity.
  - intros ->. reflexivity.
Qed.

Lemma turn_off_ramps_or_switches_witness :
  ((SetOn false ∉ calls (turn_off polled_light (ramp_kwargs None 3%float)))
   /\ turn_off polled_light (ramp_kwargs None 3%float)
      = ([BrightnessTransition 0 3], inr tt))
  /\ turn_off polled_light no_kwargs = ([SetOn false], inr tt).
Proof.
  split.
  - destruct (proj1 (turn_off_ramps_or_switches polled_light
                       (ramp_kwargs None 3%float)) 3%float) as [Hoff Hramp];
      [reflexivity | reflexivity |].
    split; [exact Hoff | apply Hramp; reflexivity].
  - apply (proj2 (turn_off_ramps_or_switches polled_light no_kwargs)).
    reflexivity.
Defined.

(** C7 as stated fails: with a transition of 0 given, [turn_off] assigns
    [on = False] at once, and commands no ramp. *)
Lemma turn_off_zero_transition_switches_off :
  let kwargs := ramp_kwargs None 0%float in
  ATTR_TRANSITION kwargs = Some 0%float
  /\ turn_off polled_light kwargs = ([SetOn false], inr tt)
  /\ SetOn false ∈ calls (turn_off polled_light kwargs)
  /\ forall d, BrightnessTransition 0 d ∉ calls (turn_off polled_light kwargs).
Proof.
  cbn zeta. repeat split.
  - vm_compute. apply list_elem_of_singleton. reflexivity.
  - intros d Hin. vm_compute in Hin.
    apply list_elem_of_singleton in Hin. discriminate.
Qed.

(** ** turn_on: arguments tested for their truth value *)

Lemma finite_hs_color_converts (kwargs : Kwargs) :
  finite_hs_color kwargs = true ->
  ATTR_HS_COLOR kwargs = None
  \/ exists hue saturation h s,
       ATTR_HS_COLOR kwargs = Some (hue, saturation)
       /\ py_int hue = inr h /\ py_int saturation = inr s.
Proof.
  unfold finite_hs_color.
  destruct (ATTR_HS_COLOR kwargs) as [[hue saturation]|]; [|now left].
  intros Hfin. right.
  apply andb_prop in Hfin as [Hh Hs].
  destruct (py_int_finite hue Hh) as [h Hh'].
  destruct (py_int_finite saturation Hs) as [s Hs'].
  now exists hue, saturation, h, s.
Qed.

(** Without a transition, and with finite hue and saturation, [turn_on]
    assigns [on = True]. *)
Lemma turn_on_switches_on `{ColorUtil} (self : NanoleafLight) (kwargs : Kwargs) :
  if_truthy truthy_float (ATTR_TRANSITION kwargs) (fun _ => true) false = false ->
  finite_hs_color kwargs = true ->
  SetOn true ∈ calls (turn_on self kwargs).
Proof.
  intros Hno Hfin. unfold turn_on.
  assert (Hpower : forall (yes : float -> Dev unit) (no : Dev unit),
             if_truthy truthy_float (ATTR_TRANSITION kwargs) yes no = no).
  { intros yes no. unfold if_truthy in *.
    destruct (ATTR_TRANSITION kwargs) as [t|]; [|reflexivity].
    destruct (truthy_float t); [discriminate|reflexivity]. }
  rewrite Hpower. unfold if_truthy.
  destruct (finite_hs_color_converts kwargs Hfin)
    as [->|(hue & saturation & h & s & -> & -> & ->)];
    (destruct (ATTR_COLOR_TEMP kwargs) as [m|]; [destruct (truthy_int m)|]);
    (destruct (ATTR_BRIGHTNESS kwargs) as [b|];
       [destruct (truthy_int b); [destruct (scale_to_100 b)|]|]);
    (destruct (ATTR_EFFECT kwargs) as [e|];
       [destruct (truthy_str e);
          [destruct (not_in_effects_list e self) as [|[|]]|]|]);
    cbn; rewrite !elem_of_cons; auto 10.
Qed.

(** C10: the arguments of [turn_on] are tested for their truth value.  A
    brightness of 0 is taken as no brightness: with a transition the ramp
    goes to the default target 100, without one neither a brightness
    assignment nor a ramp is issued.  A transition of 0 is taken as no
    transition: the light is switched on at once. *)
Theorem turn_on_zero_is_absent `{ColorUtil}
    (self : NanoleafLight) (kwargs : Kwargs) :
  turn_on self (with_brightness kwargs (Some 0))
  = turn_on self (with_brightness kwargs None)
  /\ (forall t d,
        ATTR_TRANSITION kwargs = Some t -> truthy_float t = true ->
        py_int t = inr d -> finite_hs_color kwargs = true ->
        filter (fun c => is_ramp_call c = true)
          (calls (turn_on self (with_brightness kwargs (Some 0))))
        = [BrightnessTransition 100 d])
  /\ (if_truthy truthy_float (ATTR_TRANSITION kwargs) (fun _ => true) false
      = false ->
      all_calls (fun c => negb (is_brightness_call c) && negb (is_ramp_call c))
        (turn_on self (with_brightness kwargs (Some 0))))
  /\ turn_on self (with_transition kwargs (Some 0%float))
     = turn_on self (with_transition kwargs None)
  /\ (finite_hs_color kwargs = true ->
      SetOn true ∈ calls (turn_on self (with_transition kwargs (Some 0%float)))).
Proof.
  split; [reflexivity|]. split; [|split; [|split; [reflexivity|]]].
  - intros t d Ht Htruthy Hd Hfin.
    exact (turn_on_ramps self (with_brightness kwargs (Some 0)) t d
             Ht Htruthy Hd Hfin).
  - intros Hno. unfold turn_on. cbn [with_brightness ATTR_BRIGHTNESS
      ATTR_HS_COLOR ATTR_COLOR_TEMP ATTR_EFFECT ATTR_TRANSITION].
    apply all_calls_bind; [|intros _].
    { destruct (ATTR_HS_COLOR kwargs) as [[hue saturation]|]; step_calls. }
    apply all_calls_bind; [|intros _].
    { apply all_calls_if_truthy; intros; step_calls. }
    apply all_calls_bind; [|intros _].
    { apply all_calls_if_truthy.
      - intros t Ht Htruthy. rewrite Ht in Hno. cbn in Hno.
        rewrite Htruthy in Hno. discriminate.
      - intros _. apply all_calls_bind; [step_calls|intros _].
        exact (all_calls_ret _ tt). }
    apply all_calls_if_truthy; intros; step_calls.
    match goal with |- all_calls _ (if ?b then _ else _) => destruct b end;
      step_calls.
  - intros Hfin. apply turn_on_switches_on; [reflexivity|exact Hfin].
Qed.

Lemma turn_on_zero_is_absent_witness :
  let kwargs := ramp_kwargs (Some 128) 5%float in
  filter (fun c => is_ramp_call c = true)
    (calls (turn_on (H := reciprocal_color_util) polled_light
              (with_brightness kwargs (Some 0))))
  = [BrightnessTransition 100 5]
  /\ all_calls (fun c => negb (is_brightness_call c) && negb (is_ramp_call c))
       (turn_on (H := reciprocal_color_util) polled_light
          (with_brightness no_kwargs (Some 0)))
  /\ SetOn true ∈ calls (turn_on (H := reciprocal_color_util) polled_light
                           (with_transition kwargs (Some 0%float))).
Proof.
  cbn zeta. split; [|split].
  - apply (proj1 (proj2 (turn_on_zero_is_absent (H := reciprocal_color_util)
             polled_light (ramp_kwargs (Some 128) 5%float))) 5%float 5);
      reflexivity.
  - apply (proj1 (proj2 (proj2 (turn_on_zero_is_absent
             (H := reciprocal_color_util) polled_light no_kwargs)))).
    reflexivity.
  - apply (proj2 (proj2 (proj2 (proj2 (turn_on_zero_is_absent
             (H := reciprocal_color_util) polled_light
             (ramp_kwargs (Some 128) 5%float)))))).
    reflexivity.
Defined.

(** ** turn_on: an effect that the light does not know *)

(** A sequence that ends in [raise] issues the calls of the sequence
    without that end, and fails. *)
Lemma sequence_then_raise (a b c : Dev unit) (exn : PyExn) :
  let failing := a ;; b ;; c ;; raise (A := unit) exn in
  let plain := a ;; b ;; c ;; mret tt in
  calls failing = calls plain
  /\ (exists x, outcome failing = inl x)
  /\ (outcome plain = inr tt -> outcome failing = inl exn).
Proof.
  destruct a as [ta [xa|[]]], b as [tb [xb|[]]], c as [tc [xc|[]]];
    cbn; rewrite ?app_nil_r; repeat split; eauto; discriminate.
Qed.

(** C1, as the code has it: when [turn_on] is given a non-empty effect name
    that is not in the cached effect list, the call fails and never assigns
    the effect; the device calls it issues before failing are those of the
    same call without the effect argument, and when these go through the
    failure is the [ValueError] naming the effect. *)
Theorem turn_on_unknown_effect `{ColorUtil}
    (self : NanoleafLight) (kwargs : Kwargs) (e : string) (l : list string) :
  ATTR_EFFECT kwargs = Some e ->
  truthy_str e = true ->
  _effects_list self = Some l ->
  e ∉ l ->
  calls (turn_on self kwargs) = calls (turn_on self (with_effect kwargs None))
  /\ all_calls (fun c => negb (is_effect_call c)) (turn_on self kwargs)
  /\ (exists exn, outcome (turn_on self kwargs) = inl exn)
  /\ (outcome (turn_on self (with_effect kwargs None)) = inr tt ->
      outcome (turn_on self kwargs) = inl (effect_error e)).
Proof.
  intros He Htruthy Hl Hnotin.
  assert (Hmissing : not_in_effects_list e self = inr true).
  { unfold not_in_effects_list. rewrite Hl.
    rewrite bool_decide_eq_false_2 by exact Hnotin. reflexivity. }
  split; [|split].
  - unfold turn_on. cbn [with_effect ATTR_BRIGHTNESS ATTR_HS_COLOR
      ATTR_COLOR_TEMP ATTR_EFFECT ATTR_TRANSITION].
    rewrite He. cbn [if_truthy]. rewrite Htruthy, Hmissing.
    apply sequence_then_raise.
  - unfold turn_on. rewrite He.
    apply all_calls_bind; [|intros _].
    { destruct (ATTR_HS_COLOR kwargs) as [[hue saturation]|]; step_calls. }
    apply all_calls_bind; [|intros _].
    { apply all_calls_if_truthy; intros; step_calls. }
    apply all_calls_bind; [|intros _].
    { step_calls. }
    cbn [if_truthy]. rewrite Htruthy, Hmissing. constructor.
  - unfold turn_on. cbn [with_effect ATTR_BRIGHTNESS ATTR_HS_COLOR
      ATTR_COLOR_TEMP ATTR_EFFECT ATTR_TRANSITION].
    rewrite He. cbn [if_truthy]. rewrite Htruthy, Hmissing.
    apply sequence_then_raise.
Qed.

Lemma turn_on_unknown_effect_witness :
  let kwargs := with_effect (only_brightness 128) (Some "Unknown") in
  calls (turn_on (H := reciprocal_color_util) polled_light kwargs)
  = calls (turn_on (H := reciprocal_color_util) polled_light
             (with_effect kwargs None))
  /\ all_calls (fun c => negb (is_effect_call c))
       (turn_on (H := reciprocal_color_util) polled_light kwargs)
  /\ (exists exn,
        outcome (turn_on (H := reciprocal_color_util) polled_light kwargs)
        = inl exn)
  /\ (outcome (turn_on (H := reciprocal_color_util) polled_light
                 (with_effect kwargs None)) = inr tt ->
      outcome (turn_on (H := reciprocal_color_util) polled_light kwargs)
      = inl (effect_error "Unknown")).
Proof.
  cbn zeta.
  apply (turn_on_unknown_effect (H := reciprocal_color_util) polled_light
           (with_effect (only_brightness 128) (Some "Unknown"))
           "Unknown" ["Rainbow"]); try reflexivity.
  intros Hin. apply list_elem_of_singleton in Hin. discriminate.
Defined.

(** C1 as stated fails: with the effect list ["Rainbow"], asking for the
    effect "Unknown" raises the [ValueError] only after [on = True] has been
    assigned on the device. *)
Lemma turn_on_unknown_effect_switches_on_first :
  let kwargs := with_effect no_kwargs (Some "Unknown") in
  effect_list polled_light = Some ["Rainbow"]
  /\ ("Unknown" ∉ ["Rainbow"])
  /\ turn_on (H := reciprocal_color_util) polled_light kwargs
     = ([SetOn true], inl (effect_error "Unknown"))
  /\ calls (turn_on (H := reciprocal_color_util) polled_light kwargs) <> [].
Proof.
  cbn zeta. split; [reflexivity|]. split.
  { intros Hin. apply list_elem_of_singleton in Hin. discriminate. }
  split; [vm_compute; reflexivity|].
  vm_compute. discriminate.
Qed.

(** ** update *)

(** C4: after a successful update the exposed effect, if any, is a member
    of the exposed effect list; and when the name the device reports as
    selected is not in the list it reports, the exposed effect is [None]
    and the colour temperature and the hue and saturation are those of the
    device state. *)
Theorem update_filters_effect `{ColorUtil}
    (self : NanoleafLight) (info : DeviceInfo) :
  let self' := entity (update self (inr info)) in
  escaped (update self (inr info)) = None
  /\ effect_list self' = Some (effects_effectsList info)
  /\ (forall e, effect self' = Some e ->
        e = effects_select info /\ e ∈ effects_effectsList info)
  /\ (effects_select info ∉ effects_effectsList info ->
        effect self' = None
        /\ color_temp self'
           = Some (color_temperature_kelvin_to_mired (state_ct_value info))
        /\ hs_color self'
           = Some (state_hue_value info, state_sat_value info)).
Proof.
  cbn zeta. unfold effect, effect_list, color_temp, hs_color. cbn.
  split; [reflexivity|]. split; [reflexivity|]. split.
  - intros e. case_bool_decide as Hin; intros He; [|discriminate].
    injection He as <-. split; [reflexivity|exact Hin].
  - intros Hnotin. rewrite bool_decide_eq_false_2 by exact Hnotin.
    repeat split.
Qed.

Lemma update_filters_effect_witness :
  let info := report_with_brightness 40 in
  let self' := entity (update (init "Shapes") (inr info)) in
  effect self' = None
  /\ color_temp (H := reciprocal_color_util) self' = Some 250
  /\ hs_color self' = Some (120, 50).
Proof.
  cbn zeta.
  apply (proj2 (proj2 (proj2 (update_filters_effect
           (H := reciprocal_color_util) (init "Shapes")
           (report_with_brightness 40))))).
  intros Hin. apply list_elem_of_singleton in Hin. discriminate.
Defined.

(** C5: when reading the device info raises [Unavailable], [update]
    returns without raising, writes one error record to the log, sets the
    availability to false and leaves every other cached field as it was. *)
Theorem update_unavailable_keeps_cache (self : NanoleafLight) (err : string) :
  let result := update self (inl (Unavailable err)) in
  let self' := entity result in
  escaped result = None
  /\ (exists msg, logged result = [LogError msg])
  /\ available self' = false
  /\ _brightness self' = _brightness self
  /\ _color_temp self' = _color_temp self
  /\ _effect self' = _effect self
  /\ _effects_list self' = _effects_list self
  /\ _hs_color self' = _hs_color self
  /\ _state self' = _state self
  /\ _firmwareVersion self' = _firmwareVersion self
  /\ _manufacturer self' = _manufacturer self
  /\ _model self' = _model self
  /\ _unique_id self' = _unique_id self
  /\ _name self' = _name self.
Proof.
  cbn. repeat split. eexists. reflexivity.
Qed.

(** ** The pairing confirmation step *)

Lemma getitem_Some (d : gmap string PyVal) (key : string) (v : PyVal) :
  d !! key = Some v -> getitem d key = inr v.
Proof. unfold getitem. now intros ->. Qed.

(** C8: in a pairing confirmation with user input present, on a flow whose
    discovery dictionary holds the host and the port to contact: when the
    device refuses new pairings the form is shown again with the error
    [failed_to_request_token]; when it is unreachable the form is shown
    again with [cannot_connect]; when it authorizes, an entry is created,
    titled with the discovered name, whose data holds the host, the port,
    the name and the token acquired. *)
Theorem zeroconf_confirm_outcomes
    (authorize : Nanoleaf -> PyExn + Nanoleaf)
    (self : NanoleafConfigFlow) (user_input : gmap string PyVal)
    (host port name : PyVal) :
  discovery_info self !! CONF_HOST = Some host ->
  discovery_info self !! CONF_PORT = Some port ->
  let result := async_step_zeroconf_confirm authorize self (Some user_input) in
  (forall msg,
     authorize (Nanoleaf_new host port) = inl (NotAuthorizingNewTokens msg) ->
     result = (self, inr (ShowForm "zeroconf_confirm" (discovery_info self)
                            {[ "base" := "failed_to_request_token" ]})))
  /\ (forall msg,
        authorize (Nanoleaf_new host port) = inl (Unavailable msg) ->
        result = (self, inr (ShowForm "zeroconf_confirm" (discovery_info self)
                               {[ "base" := "cannot_connect" ]})))
  /\ (forall nanoleaf,
        authorize (Nanoleaf_new host port) = inr nanoleaf ->
        discovery_info self !! CONF_NAME = Some name ->
        exists data,
          result = ({| discovery_info := data |}, inr (CreateEntry name data))
          /\ data !! CONF_HOST = Some host
          /\ data !! CONF_PORT = Some port
          /\ data !! CONF_NAME = Some name
          /\ data !! CONF_TOKEN = Some (nl_token nanoleaf)).
Proof.
  intros Hhost Hport. cbn zeta.
  unfold async_step_zeroconf_confirm.
  rewrite (getitem_Some _ _ _ Hhost), (getitem_Some _ _ _ Hport).
  unfold try_authorize. split; [|split].
  - intros msg ->. rewrite bool_decide_eq_true_2; [reflexivity|].
    apply insert_non_empty.
  - intros msg ->. rewrite bool_decide_eq_true_2; [reflexivity|].
    apply insert_non_empty.
  - intros nanoleaf -> Hname.
    rewrite bool_decide_eq_false_2 by (intros Hne; now apply Hne).
    exists (<[CONF_TOKEN := nl_token nanoleaf]> (discovery_info self)).
    unfold _entry_from_data.
    rewrite (getitem_Some _ CONF_NAME name)
      by (rewrite lookup_insert_ne by discriminate; exact Hname).
    split; [reflexivity|].
    rewrite !lookup_insert_ne by discriminate.
    rewrite lookup_insert_eq. auto.
Qed.

Lemma zeroconf_confirm_outcomes_witness :
  async_step_zeroconf_confirm device_not_pairing discovered_shapes (Some ∅)
  = (discovered_shapes,
     inr (ShowForm "zeroconf_confirm" (discovery_info discovered_shapes)
            {[ "base" := "failed_to_request_token" ]}))
  /\ async_step_zeroconf_confirm device_offline discovered_shapes (Some ∅)
     = (discovered_shapes,
        inr (ShowForm "zeroconf_confirm" (discovery_info discovered_shapes)
               {[ "base" := "cannot_connect" ]}))
  /\ exists data,
       async_step_zeroconf_confirm (device_pairing "s3cr3t") discovered_shapes
         (Some ∅)
       = ({| discovery_info := data |},
          inr (CreateEntry (VStr "Shapes 1A2B") data))
       /\ data !! CONF_HOST = Some (VStr "192.168.1.20")
       /\ data !! CONF_PORT = Some (VInt 16021)
       /\ data !! CONF_NAME = Some (VStr "Shapes 1A2B")
       /\ data !! CONF_TOKEN = Some (VStr "s3cr3t").
Proof.
  split; [|split].
  - apply (proj1 (zeroconf_confirm_outcomes device_not_pairing
             discovered_shapes ∅ (VStr "192.168.1.20") (VInt 16021)
             (VStr "Shapes 1A2B") eq_refl eq_refl) "403").
    reflexivity.
  - apply (proj1 (proj2 (zeroconf_confirm_outcomes device_offline
             discovered_shapes ∅ (VStr "192.168.1.20") (VInt 16021)
             (VStr "Shapes 1A2B") eq_refl eq_refl)) "timed out").
    reflexivity.
  - apply (proj2 (proj2 (zeroconf_confirm_outcomes (device_pairing "s3cr3t")
             discovered_shapes ∅ (VStr "192.168.1.20") (VInt 16021)
             (VStr "Shapes 1A2B") eq_refl eq_refl))
             {| nl_host := VStr "192.168.1.20"; nl_port := VInt 16021;
                nl_token := VStr "s3cr3t" |}); reflexivity.
Defined.

(** * Further properties of the code *)

(** ** Brightness scaling on the whole ranges *)

Lemma host_levels_complete (x : Z) : 0 <= x <= 255 -> In x host_levels.
Proof.
  intros Hx. unfold host_levels.
  rewrite <- (Z2Nat.id x) by lia.
  apply in_map, in_seq. lia.
Qed.

Lemma by_host_levels (check : Z -> bool) :
  forallb check host_levels = true ->
  forall x, 0 <= x <= 255 -> check x = true.
Proof.
  intros Hall x Hx.
  apply (proj1 (forallb_forall check host_levels) Hall).
  now apply host_levels_complete.
Qed.

Lemma check_scale_to_100_all : forallb check_scale_to_100 host_levels = true.
Proof. vm_compute. reflexivity. Qed.

Lemma check_scale_to_255_all : forallb check_scale_to_255 device_levels = true.
Proof. vm_compute. reflexivity. Qed.

Lemma check_reverse_trip_all : forallb check_reverse_trip host_levels = true.
Proof. vm_compute. reflexivity. Qed.

(** On 0..255, [int(x / 2.55)] is the integer quotient [100 * x / 255]. *)
Lemma scale_to_100_quotient (x : Z) :
  0 <= x <= 255 -> scale_to_100 x = inr (x * 100 / 255).
Proof.
  intros Hx.
  pose proof (by_host_levels _ check_scale_to_100_all x Hx) as Hc.
  unfold check_scale_to_100 in Hc.
  destruct (scale_to_100 x) as [|d]; [discriminate|].
  apply Z.eqb_eq in Hc. now subst.
Qed.

(** On 0..100, [int(b * 2.55)] is [truncated_level b]. *)
Lemma scale_to_255_truncated (b : Z) :
  0 <= b <= 100 -> scale_to_255 b = inr (truncated_level b).
Proof.
  intros Hb.
  pose proof (by_levels _ check_scale_to_255_all b Hb) as Hc.
  unfold check_scale_to_255 in Hc.
  destruct (scale_to_255 b) as [|e]; [discriminate|].
  apply Z.eqb_eq in Hc. now subst.
Qed.

(** X1: for a host brightness [x] in 1..255 and nothing else given,
    [turn_on] assigns [on = True] and then the device brightness
    [100 * x / 255] (integer quotient), which lies in 0..100; it is 0 for
    [x] = 1 and 2. *)
Theorem turn_on_brightness_in_device_range `{ColorUtil}
    (self : NanoleafLight) (x : Z) :
  1 <= x <= 255 ->
  turn_on self (only_brightness x)
  = ([SetOn true; SetBrightness (x * 100 / 255)], inr tt)
  /\ 0 <= x * 100 / 255 <= 100
  /\ (x * 100 / 255 = 0 <-> x <= 2).
Proof.
  intros Hx. split; [|split].
  - unfold turn_on, only_brightness, if_truthy. cbn.
    replace (truthy_int x) with true
      by (unfold truthy_int; destruct (Z.eqb_spec x 0); [lia|reflexivity]).
    rewrite scale_to_100_quotient by lia. reflexivity.
  - split.
    + apply Z.div_pos; lia.
    + apply Z.div_le_upper_bound; lia.
  - split; intros H0.
    + destruct (Z_le_gt_dec x 2) as [Hle|Hgt]; [exact Hle|].
      assert (1 <= x * 100 / 255) by (apply Z.div_le_lower_bound; lia). lia.
    + apply Z.div_small. lia.
Qed.

Lemma turn_on_brightness_in_device_range_witness :
  turn_on (H := reciprocal_color_util) polled_light (only_brightness 255)
  = ([SetOn true; SetBrightness (255 * 100 / 255)], inr tt)
  /\ 0 <= 255 * 100 / 255 <= 100
  /\ (255 * 100 / 255 = 0 <-> 255 <= 2).
Proof.
  apply (turn_on_brightness_in_device_range (H := reciprocal_color_util)
           polled_light 255). lia.
Defined.

(** X2: a host brightness [x] in 0..255 scaled by [turn_on] to the device
    value [d], stored by the device and read back by [update], is exposed
    by the [brightness] property as a value between [x - 3] and [x]: never
    above what was asked. *)
Theorem brightness_reverse_trip
    (self : NanoleafLight) (info : DeviceInfo) (x : Z) :
  0 <= x <= 255 ->
  exists d, scale_to_100 x = inr d
    /\ (state_brightness_value info = d ->
        exists e, brightness (entity (update self (inr info))) = inr (Some e)
                  /\ x - 3 <= e <= x).
Proof.
  intros Hx.
  pose proof (by_host_levels _ check_reverse_trip_all x Hx) as Hc.
  unfold check_reverse_trip in Hc.
  destruct (scale_to_100 x) as [|d]; [discriminate|].
  exists d. split; [reflexivity|]. intros Hinfo.
  rewrite brightness_after_update, Hinfo.
  destruct (scale_to_255 d) as [|e]; [discriminate|].
  apply andb_prop in Hc as [Hlo Hhi]. apply Z.leb_le in Hlo, Hhi.
  exists e. split; [reflexivity|lia].
Qed.

Lemma brightness_reverse_trip_witness :
  exists d, scale_to_100 255 = inr d
    /\ (state_brightness_value (report_with_brightness 100) = d ->
        exists e,
          brightness (entity (update (init "Shapes")
                                (inr (report_with_brightness 100))))
          = inr (Some e)
          /\ 255 - 3 <= e <= 255).
Proof.
  apply (brightness_reverse_trip (init "Shapes") (report_with_brightness 100) 255).
  lia.
Defined.

Lemma truncated_level_increasing (b1 b2 : Z) :
  0 <= b1 -> b1 < b2 -> b2 <= 100 ->
  truncated_level b1 < truncated_level b2.
Proof.
  intros H0 Hlt H100. unfold truncated_level.
  destruct (Z.eqb_spec b1 100) as [|_]; [lia|].
  destruct (Z.eqb_spec b2 100) as [->|Hne].
  - assert (b1 * 255 / 100 <= 99 * 255 / 100)
      by (apply Z.div_le_mono; lia).
    change (99 * 255 / 100) with 252 in *. lia.
  - assert (b1 * 255 / 100 + 2 <= b2 * 255 / 100); [|lia].
    replace (b1 * 255 / 100 + 2) with ((b1 * 255 + 2 * 100) / 100)
      by (rewrite Z.div_add by lia; reflexivity).
    apply Z.div_le_mono; lia.
Qed.

(** X3: the exposed brightness preserves the order of the device levels
    0..100 strictly (two different device levels are never exposed as the
    same value) and stays within 0..254: the host's full brightness 255 is
    never reported. *)
Theorem exposed_brightness_strictly_increasing
    (self1 self2 : NanoleafLight) (info1 info2 : DeviceInfo) :
  0 <= state_brightness_value info1 ->
  state_brightness_value info1 < state_brightness_value info2 ->
  state_brightness_value info2 <= 100 ->
  exists e1 e2,
    brightness (entity (update self1 (inr info1))) = inr (Some e1)
    /\ brightness (entity (update self2 (inr info2))) = inr (Some e2)
    /\ 0 <= e1 /\ e1 < e2 /\ e2 <= 254.
Proof.
  intros H0 Hlt H100.
  rewrite !brightness_after_update.
  rewrite !scale_to_255_truncated by lia.
  exists (truncated_level (state_brightness_value info1)),
         (truncated_level (state_brightness_value info2)).
  split; [reflexivity|]. split; [reflexivity|].
  pose proof (truncated_level_increasing _ _ H0 Hlt H100) as Hinc.
  split; [|split; [exact Hinc|]].
  - unfold truncated_level.
    destruct (Z.eqb_spec (state_brightness_value info1) 100); [lia|].
    apply Z.div_pos; lia.
  - unfold truncated_level.
    destruct (Z.eqb_spec (state_brightness_value info2) 100); [lia|].
    apply Z.div_le_upper_bound; lia.
Qed.

Lemma exposed_brightness_strictly_increasing_witness :
  exists e1 e2,
    brightness (entity (update (init "Shapes")
                          (inr (report_with_brightness 99))))
    = inr (Some e1)
    /\ brightness (entity (update (init "Shapes")
                             (inr (report_with_brightness 100))))
       = inr (Some e2)
    /\ 0 <= e1 /\ e1 < e2 /\ e2 <= 254.
Proof.
  apply (exposed_brightness_strictly_increasing (init "Shapes") (init "Shapes")
           (report_with_brightness 99) (report_with_brightness 100));
    cbn; lia.
Defined.

(** ** turn_on and turn_off: what reaches the device *)

(** X4: on validated numbers (brightness in 0..255, finite hue, saturation
    and transition) [turn_on] issues exactly one power call: either
    [on = True], or one ramp whose target lies in 0..100; never both. *)
Theorem turn_on_one_power_call `{ColorUtil}
    (self : NanoleafLight) (kwargs : Kwargs) :
  validated kwargs = true ->
  filter (fun c => is_power_call c = true) (calls (turn_on self kwargs))
  = [SetOn true]
  \/ exists target seconds,
       filter (fun c => is_power_call c = true) (calls (turn_on self kwargs))
       = [BrightnessTransition target seconds]
       /\ 0 <= target <= 100.
Proof.
  unfold validated. intros Hv.
  apply andb_prop in Hv as [Hv Ht]. apply andb_prop in Hv as [Hb Hhs].
  assert (Hscale : forall x, ATTR_BRIGHTNESS kwargs = Some x ->
            scale_to_100 x = inr (x * 100 / 255) /\ 0 <= x * 100 / 255 <= 100).
  { intros x Hx. rewrite Hx in Hb. apply andb_prop in Hb as [Hlo Hhi].
    apply Z.leb_le in Hlo, Hhi. split; [apply scale_to_100_quotient; lia|].
    split; [apply Z.div_pos; lia|apply Z.div_le_upper_bound; lia]. }
  clear Hb. unfold turn_on, if_truthy.
  destruct (finite_hs_color_converts kwargs Hhs)
    as [->|(hue & saturation & h & s & -> & -> & ->)];
    (destruct (ATTR_TRANSITION kwargs) as [t|];
       [destruct (py_int_finite t Ht) as [d Hd]; rewrite ?Hd;
        destruct (truthy_float t)|]);
    (destruct (ATTR_COLOR_TEMP kwargs) as [m|]; [destruct (truthy_int m)|]);
    (destruct (ATTR_BRIGHTNESS kwargs) as [b|];
       [destruct (Hscale b eq_refl) as [-> Hrange]; destruct (truthy_int b)|]);
    (destruct (ATTR_EFFECT kwargs) as [e|];
       [destruct (truthy_str e);
          [destruct (not_in_effects_list e self) as [|[|]]|]|]);
    rewrite ?Hd;
    first [ left; reflexivity
          | right; eexists _, _; split; [reflexivity|lia] ].
Qed.

Lemma turn_on_one_power_call_witness :
  filter (fun c => is_power_call c = true)
    (calls (turn_on (H := reciprocal_color_util) polled_light full_kwargs))
  = [SetOn true]
  \/ exists target seconds,
       filter (fun c => is_power_call c = true)
         (calls (turn_on (H := reciprocal_color_util) polled_light full_kwargs))
       = [BrightnessTransition target seconds]
       /\ 0 <= target <= 100.
Proof.
  apply (turn_on_one_power_call (H := reciprocal_color_util) polled_light
           full_kwargs).
  reflexivity.
Defined.

(** X5: [turn_on] converts the hue and the saturation before anything
    else.  When [int(hue)] raises (a NaN or an infinity), no device call is
    issued at all; when only [int(saturation)] raises, the hue has already
    been assigned and nothing else is. *)
Theorem turn_on_bad_colour_stops_early `{ColorUtil}
    (self : NanoleafLight) (kwargs : Kwargs) (hue saturation : float) :
  ATTR_HS_COLOR kwargs = Some (hue, saturation) ->
  (forall exn, py_int hue = inl exn -> turn_on self kwargs = ([], inl exn))
  /\ (forall h exn, py_int hue = inr h -> py_int saturation = inl exn ->
        turn_on self kwargs = ([SetHue h], inl exn)).
Proof.
  intros Hhs. unfold turn_on. rewrite Hhs. split.
  - intros exn ->. reflexivity.
  - intros h exn -> ->. reflexivity.
Qed.

Lemma turn_on_bad_colour_stops_early_witness :
  turn_on (H := reciprocal_color_util) polled_light
    (with_hs_color full_kwargs (Some (nan, 80.2%float)))
  = ([], inl (ValueError "cannot convert float NaN to integer"))
  /\ turn_on (H := reciprocal_color_util) polled_light
       (with_hs_color full_kwargs (Some (120.5%float, infinity)))
     = ([SetHue 120],
        inl (OverflowError "cannot convert float infinity to integer")).
Proof.
  split.
  - apply (proj1 (turn_on_bad_colour_stops_early (H := reciprocal_color_util)
             polled_light (with_hs_color full_kwargs (Some (nan, 80.2%float)))
             nan 80.2%float eq_refl)).
    reflexivity.
  - apply (proj2 (turn_on_bad_colour_stops_early (H := reciprocal_color_util)
             polled_light
             (with_hs_color full_kwargs (Some (120.5%float, infinity)))
             120.5%float infinity eq_refl)); reflexivity.
Defined.

(** X6: on a light that has never been updated the effect list is [None],
    and a call of [turn_on] with a non-empty effect fails on the membership
    test: it issues the calls of the same call without the effect, never
    the effect assignment, and then raises [TypeError]. *)
Theorem turn_on_effect_before_first_update `{ColorUtil}
    (self : NanoleafLight) (kwargs : Kwargs) (e : string) :
  ATTR_EFFECT kwargs = Some e ->
  truthy_str e = true ->
  _effects_list self = None ->
  calls (turn_on self kwargs) = calls (turn_on self (with_effect kwargs None))
  /\ (exists exn, outcome (turn_on self kwargs) = inl exn)
  /\ (outcome (turn_on self (with_effect kwargs None)) = inr tt ->
      outcome (turn_on self kwargs) = inl effects_list_missing).
Proof.
  intros He Htruthy Hl.
  assert (Hmissing : not_in_effects_list e self = inl effects_list_missing).
  { unfold not_in_effects_list. rewrite Hl. reflexivity. }
  unfold turn_on. cbn [with_effect ATTR_BRIGHTNESS ATTR_HS_COLOR
    ATTR_COLOR_TEMP ATTR_EFFECT ATTR_TRANSITION].
  rewrite He. cbn [if_truthy]. rewrite Htruthy, Hmissing.
  apply sequence_then_raise.
Qed.

Lemma turn_on_effect_before_first_update_witness :
  let kwargs := with_effect no_kwargs (Some "Rainbow") in
  calls (turn_on (H := reciprocal_color_util) (init "Shapes") kwargs)
  = calls (turn_on (H := reciprocal_color_util) (init "Shapes")
             (with_effect kwargs None))
  /\ (exists exn,
        outcome (turn_on (H := reciprocal_color_util) (init "Shapes") kwargs)
        = inl exn)
  /\ (outcome (turn_on (H := reciprocal_color_util) (init "Shapes")
                 (with_effect kwargs None)) = inr tt ->
      outcome (turn_on (H := reciprocal_color_util) (init "Shapes") kwargs)
      = inl effects_list_missing).
Proof.
  cbn zeta.
  apply (turn_on_effect_before_first_update (H := reciprocal_color_util)
           (init "Shapes") (with_effect no_kwargs (Some "Rainbow")) "Rainbow");
    reflexivity.
Defined.

(** A sequence that ends in one device call issues it last, if it gets
    there. *)
Lemma sequence_then_call (a b c : Dev unit) (x : DeviceCall) :
  let full := a ;; b ;; c ;; call x in
  let plain := a ;; b ;; c ;; mret tt in
  match outcome plain with
  | inr _ => full = (calls plain ++ [x], inr tt)
  | inl _ => full = plain
  end.
Proof.
  destruct a as [ta [xa|[]]], b as [tb [xb|[]]], c as [tc [xc|[]]];
    cbn; rewrite ?app_nil_r, <- ?app_assoc; reflexivity.
Qed.

(** X7: with a non-empty effect that is in the cached effect list,
    [turn_on] does what the same call without the effect does and, if that
    goes through, assigns the effect as its last device call. *)
Theorem turn_on_known_effect_comes_last `{ColorUtil}
    (self : NanoleafLight) (kwargs : Kwargs) (e : string) (l : list string) :
  ATTR_EFFECT kwargs = Some e ->
  truthy_str e = true ->
  _effects_list self = Some l ->
  e ∈ l ->
  match outcome (turn_on self (with_effect kwargs None)) with
  | inr _ =>
      turn_on self kwargs
      = (calls (turn_on self (with_effect kwargs None)) ++ [SetEffect e], inr tt)
  | inl _ => turn_on self kwargs = turn_on self (with_effect kwargs None)
  end.
Proof.
  intros He Htruthy Hl Hin.
  assert (Hknown : not_in_effects_list e self = inr false).
  { unfold not_in_effects_list. rewrite Hl.
    rewrite bool_decide_eq_true_2 by exact Hin. reflexivity. }
  unfold turn_on. cbn [with_effect ATTR_BRIGHTNESS ATTR_HS_COLOR
    ATTR_COLOR_TEMP ATTR_EFFECT ATTR_TRANSITION].
  rewrite He. cbn [if_truthy]. rewrite Htruthy, Hknown.
  apply sequence_then_call.
Qed.

Lemma turn_on_known_effect_comes_last_witness :
  turn_on (H := reciprocal_color_util) polled_light full_kwargs
  = (calls (turn_on (H := reciprocal_color_util) polled_light
              (with_effect full_kwargs None)) ++ [SetEffect "Rainbow"],
     inr tt).
Proof.
  apply (turn_on_known_effect_comes_last (H := reciprocal_color_util)
           polled_light full_kwargs "Rainbow" ["Rainbow"]);
    try reflexivity.
  apply list_elem_of_singleton. reflexivity.
Defined.

(** X8: whatever its arguments, [turn_off] reads only the transition and
    issues at most one device call, [on = False] or a ramp to 0: exactly
    one when it returns, none when [int(transition)] raises. *)
Theorem turn_off_one_call (self : NanoleafLight) (kwargs : Kwargs) :
  turn_off self kwargs
  = turn_off self (with_transition no_kwargs (ATTR_TRANSITION kwargs))
  /\ all_calls is_off_call (turn_off self kwargs)
  /\ match outcome (turn_off self kwargs) with
     | inr _ => length (calls (turn_off self kwargs)) = 1%nat
     | inl _ => calls (turn_off self kwargs) = []
     end.
Proof.
  split; [reflexivity|]. unfold turn_off, if_truthy, all_calls.
  destruct (ATTR_TRANSITION kwargs) as [t|].
  - destruct (truthy_float t).
    + destruct (py_int t) as [exn|d]; cbn; split; auto.
    + cbn. split; auto.
  - cbn. split; auto.
Qed.

(** ** update: what a poll keeps and what it replaces *)



(** X10: when the effect the device reports as selected is in the list it
    reports, a successful poll exposes that effect and clears the colour
    temperature and the hue and saturation, whatever was cached before;
    after any successful poll the effect is [None] exactly when the hue
    and saturation are present. *)
Theorem update_effect_clears_colour `{ColorUtil}
    (self : NanoleafLight) (info : DeviceInfo) :
  let self' := entity (update self (inr info)) in
  (effects_select info ∈ effects_effectsList info ->
     effect self' = Some (effects_select info)
     /\ color_temp self' = None
     /\ hs_color self' = None)
  /\ (effect self' = None <-> hs_color self' <> None)
  /\ (effect self' = None <-> color_temp self' <> None).
Proof.
  cbn zeta. unfold effect, color_temp, hs_color. cbn.
  split; [|split].
  - intros Hin. rewrite bool_decide_eq_true_2 by exact Hin. auto.
  - case_bool_decide; split; intros Hx; try discriminate; try reflexivity.
    now contradict Hx.
  - case_bool_decide; split; intros Hx; try discriminate; try reflexivity.
    now contradict Hx.
Qed.

Lemma update_effect_clears_colour_witness :
  let self' :=
    entity (update polled_light
              (inr (report_with_effect "Flames" ["Rainbow"; "Flames"]))) in
  effect self' = Some "Flames"
  /\ color_temp (H := reciprocal_color_util) self' = None
  /\ hs_color self' = None.
Proof.
  cbn zeta.
  apply (proj1 (update_effect_clears_colour (H := reciprocal_color_util)
                  polled_light
                  (report_with_effect "Flames" ["Rainbow"; "Flames"]))).
  cbn. rewrite !elem_of_cons. auto.
Defined.

(** X11: [update] catches [Unavailable] only.  Any other exception raised
    while reading the device info leaves the method, with nothing logged
    and the entity, its availability included, exactly as it was. *)
Theorem update_other_exception_escapes
    (self : NanoleafLight) (exn : PyExn) :
  (forall msg, exn <> Unavailable msg) ->
  update self (inl exn)
  = {| entity := self; logged := []; escaped := Some exn |}.
Proof.
  intros Hother. destruct exn; try reflexivity.
  exfalso. exact (Hother msg eq_refl).
Qed.

Lemma update_other_exception_escapes_witness :
  update polled_light (inl (InvalidToken "401"))
  = {| entity := polled_light; logged := [];
       escaped := Some (InvalidToken "401") |}.
Proof.
  apply (update_other_exception_escapes polled_light (InvalidToken "401")).
  intros msg. discriminate.
Defined.

(** X12: the icon follows the model the last successful poll reported:
    the square for "NL29", the hexagon for "NL42", the triangle for every
    other model; a light that has never been polled shows the triangle. *)
Theorem icon_follows_model (self : NanoleafLight) (info : DeviceInfo) :
  let self' := entity (update self (inr info)) in
  (icon self' = ICON_SQUARE <-> model info = "NL29")
  /\ (icon self' = ICON_HEXAGON <-> model info = "NL42")
  /\ (icon self' = ICON_TRIANGLE <->
      model info <> "NL29" /\ model info <> "NL42")
  /\ icon (init (name self)) = ICON_TRIANGLE.
Proof.
  cbn zeta. unfold icon. cbn [update entity _model].
  split; [|split; [|split; [|reflexivity]]].
  - destruct (decide (Some (model info) = Some "NL29")) as [Heq|Hne].
    + split; [intros _; congruence|reflexivity].
    + destruct (decide (Some (model info) = Some "NL42")); split;
        try discriminate; intros Hm; exfalso; apply Hne; congruence.
  - destruct (decide (Some (model info) = Some "NL29")) as [Heq|Hne].
    + split; [discriminate|]. intros Hm. injection Heq as Heq. congruence.
    + destruct (decide (Some (model info) = Some "NL42")) as [Heq|Hne'].
      * split; [intros _; congruence|reflexivity].
      * split; [discriminate|]. intros Hm. exfalso. apply Hne'. congruence.
  - destruct (decide (Some (model info) = Some "NL29")) as [Heq|Hne].
    + split; [discriminate|]. intros [Hm _]. congruence.
    + destruct (decide (Some (model info) = Some "NL42")) as [Heq|Hne'].
      * split; [discriminate|]. intros [_ Hm]. congruence.
      * split; [|reflexivity]. intros _. split; congruence.
Qed.

(** ** The discovery step *)

Lemma replace_go_skips_all (old new s : string) (skip : nat) :
  (String.length s <= skip)%nat -> replace_go old new skip s = "".
Proof.
  revert skip. induction s as [|c s IH]; intros skip Hlen; [reflexivity|].
  cbn in *. destruct skip as [|k]; [lia|]. apply IH. lia.
Qed.

Lemma prefix_same (s : string) : String.prefix s s = true.
Proof.
  induction s as [|c s IH]; [reflexivity|].
  cbn. destruct (Ascii.ascii_dec c c); [exact IH|congruence].
Qed.

(** Removing a suffix that starts with a character the rest is free of. *)
Lemma str_replace_suffix (c : Ascii.ascii) (p rest : string) :
  free_of c p = true ->
  str_replace (String.append p (String c rest)) (String c rest) "" = p.
Proof.
  intros Hfree. unfold str_replace.
  induction p as [|c' p IH].
  - change (String.append "" (String c rest)) with (String c rest).
    change (replace_go (String c rest) "" 0 (String c rest))
      with (if String.prefix (String c rest) (String c rest)
            then String.append ""
                   (replace_go (String c rest) "" (String.length rest - 0) rest)
            else String c (replace_go (String c rest) "" 0 rest)).
    rewrite prefix_same, Nat.sub_0_r.
    rewrite replace_go_skips_all by lia. reflexivity.
  - cbn in Hfree. apply andb_prop in Hfree as [Hne Hfree].
    change (String.append (String c' p) (String c rest))
      with (String c' (String.append p (String c rest))).
    cbn [replace_go String.prefix].
    destruct (Ascii.ascii_dec c c') as [->|_].
    + rewrite Ascii.eqb_refl in Hne. discriminate.
    + f_equal. apply IH. exact Hfree.
Qed.

Section Discovery.

(** A discovery record that holds every entry the step reads. *)
Variables (discovery : ZeroconfInfo) (properties : gmap string PyVal).
Variables (host port zctype id md version : PyVal) (advertised : string).
Hypothesis has_host : zc_entries discovery !! CONF_HOST = Some host.
Hypothesis has_port : zc_entries discovery !! CONF_PORT = Some port.
Hypothesis has_type : zc_entries discovery !! CONF_TYPE = Some zctype.
Hypothesis has_name :
  zc_entries discovery !! CONF_NAME = Some (VStr advertised).
Hypothesis has_properties : zc_properties discovery = Some properties.
Hypothesis has_id : properties !! "id" = Some id.
Hypothesis has_md : properties !! "md" = Some md.
Hypothesis has_srcvers : properties !! "srcvers" = Some version.

Variable duplicate : PyVal -> option string.
Variable authorize : Nanoleaf -> PyExn + Nanoleaf.
Variable self : NanoleafConfigFlow.

(** The name the step stores. *)
Let name : string :=
  str_replace advertised (String.append "." (py_str zctype)) "".

Lemma read_discovery_complete :
  read_discovery discovery = inr (host, port, name, id).
Proof using has_host has_port has_type has_name has_properties has_id
  has_md has_srcvers.
  unfold read_discovery, property.
  rewrite (getitem_Some _ _ _ has_host), (getitem_Some _ _ _ has_port),
    (getitem_Some _ _ _ has_type), (getitem_Some _ _ _ has_name),
    has_properties, (getitem_Some _ _ _ has_id),
    (getitem_Some _ _ _ has_md), (getitem_Some _ _ _ has_srcvers).
  reflexivity.
Qed.

(** X13: for a discovery record that holds host, port, type, a string
    name and the properties id, md and srcvers, and an id the framework
    does not know, the discovery step stores host, port, id and the name
    without its type suffix in the flow (other entries stay), hands the
    id over as unique id, sets the same dictionary as title placeholders
    and shows the confirmation form with it and no error; the device is
    not contacted. *)
Theorem zeroconf_shows_confirmation_form :
  duplicate id = None ->
  exists info,
    async_step_zeroconf duplicate authorize self discovery
    = {| flow := {| discovery_info := info |};
         unique_id_set := Some id;
         title_placeholders := Some info;
         step := inr (ShowForm "zeroconf_confirm" info ∅) |}
    /\ info !! CONF_HOST = Some host
    /\ info !! CONF_PORT = Some port
    /\ info !! CONF_ID = Some id
    /\ info !! CONF_NAME = Some (VStr name)
    /\ forall key, key ∉ [CONF_HOST; CONF_PORT; CONF_ID; CONF_NAME] ->
         info !! key = discovery_info self !! key.
Proof using All.
  intros Hnew. unfold async_step_zeroconf.
  rewrite read_discovery_complete, Hnew. cbn.
  eexists. split; [reflexivity|].
  repeat split; try (simplify_map_eq; reflexivity).
  intros key Hkey. rewrite !not_elem_of_cons in Hkey.
  destruct Hkey as (H1 & H2 & H3 & H4 & _). cbn [discovery_info].
  rewrite !lookup_insert_ne by congruence. reflexivity.
Qed.

(** X14: when the framework reports the id as a duplicate, the step
    raises its [AbortFlow] and sets no title placeholders; by then the
    host, port, id and name of the record are already stored in the
    flow. *)
Theorem zeroconf_duplicate_aborts (reason : string) :
  duplicate id = Some reason ->
  let result := async_step_zeroconf duplicate authorize self discovery in
  step result = inl (AbortFlow reason)
  /\ title_placeholders result = None
  /\ unique_id_set result = Some id
  /\ discovery_info (flow result) !! CONF_HOST = Some host
  /\ discovery_info (flow result) !! CONF_PORT = Some port
  /\ discovery_info (flow result) !! CONF_ID = Some id
  /\ discovery_info (flow result) !! CONF_NAME = Some (VStr name).
Proof using All.
  intros Hdup. cbn zeta. unfold async_step_zeroconf.
  rewrite read_discovery_complete, Hdup. cbn.
  repeat split; simplify_map_eq; reflexivity.
Qed.

(** X15: discovery on a new flow followed by a confirmation that the
    device authorizes creates an entry titled with the stored name whose
    data holds exactly host, port, id, name and the token. *)
Theorem discovery_then_pairing_creates_entry
    (user_input : gmap string PyVal) (nanoleaf : Nanoleaf) :
  duplicate id = None ->
  authorize (Nanoleaf_new host port) = inr nanoleaf ->
  let discovered := async_step_zeroconf duplicate authorize new_flow discovery in
  exists data,
    snd (async_step_zeroconf_confirm authorize (flow discovered)
           (Some user_input))
    = inr (CreateEntry (VStr name) data)
    /\ dom data
       = ({[ CONF_HOST; CONF_PORT; CONF_ID; CONF_NAME; CONF_TOKEN ]}
          : gset string)
    /\ data !! CONF_HOST = Some host
    /\ data !! CONF_PORT = Some port
    /\ data !! CONF_ID = Some id
    /\ data !! CONF_NAME = Some (VStr name)
    /\ data !! CONF_TOKEN = Some (nl_token nanoleaf).
Proof using has_host has_port has_type has_name has_properties has_id
  has_md has_srcvers.
  intros Hnew Hauth. cbn zeta. unfold async_step_zeroconf.
  rewrite read_discovery_complete, Hnew. cbn [flow async_step_zeroconf_confirm].
  unfold async_step_zeroconf_confirm. cbn [discovery_info new_flow].
  rewrite (getitem_Some _ CONF_HOST host) by (simplify_map_eq; reflexivity).
  rewrite (getitem_Some _ CONF_PORT port) by (simplify_map_eq; reflexivity).
  unfold try_authorize. rewrite Hauth.
  rewrite bool_decide_eq_false_2 by (intros Hne; now apply Hne).
  unfold _entry_from_data.
  rewrite (getitem_Some _ CONF_NAME (VStr name))
    by (simplify_map_eq; reflexivity).
  eexists. split; [reflexivity|].
  split.
  - rewrite !dom_insert_L, dom_empty_L. set_solver.
  - repeat split; simplify_map_eq; reflexivity.
Qed.

End Discovery.

Lemma zeroconf_shows_confirmation_form_witness :
  exists info,
    async_step_zeroconf (fun _ => None) device_offline new_flow shapes_advert
    = {| flow := {| discovery_info := info |};
         unique_id_set := Some (VStr "AA:BB:CC:DD:EE:FF");
         title_placeholders := Some info;
         step := inr (ShowForm "zeroconf_confirm" info ∅) |}
    /\ info !! CONF_HOST = Some (VStr "192.168.1.20")
    /\ info !! CONF_PORT = Some (VInt 16021)
    /\ info !! CONF_ID = Some (VStr "AA:BB:CC:DD:EE:FF")
    /\ info !! CONF_NAME = Some (VStr "Shapes 1A2B")
    /\ forall key, key ∉ [CONF_HOST; CONF_PORT; CONF_ID; CONF_NAME] ->
         info !! key = discovery_info new_flow !! key.
Proof.
  apply (zeroconf_shows_confirmation_form shapes_advert
           (<["id" := VStr "AA:BB:CC:DD:EE:FF"]>
              (<["md" := VStr "NL42"]> (<["srcvers" := VStr "5.1.0"]> ∅)))
           (VStr "192.168.1.20") (VInt 16021)
           (VStr "_nanoleafapi._tcp.local.") (VStr "AA:BB:CC:DD:EE:FF")
           (VStr "NL42") (VStr "5.1.0") "Shapes 1A2B._nanoleafapi._tcp.local."
           eq_refl eq_refl eq_refl eq_refl eq_refl eq_refl eq_refl eq_refl
           (fun _ => None) device_offline new_flow eq_refl).
Defined.

Lemma zeroconf_duplicate_aborts_witness :
  let result :=
    async_step_zeroconf (fun _ => Some "already_configured") device_offline
      new_flow shapes_advert in
  step result = inl (AbortFlow "already_configured")
  /\ title_placeholders result = None
  /\ unique_id_set result = Some (VStr "AA:BB:CC:DD:EE:FF")
  /\ discovery_info (flow result) !! CONF_HOST = Some (VStr "192.168.1.20")
  /\ discovery_info (flow result) !! CONF_PORT = Some (VInt 16021)
  /\ discovery_info (flow result) !! CONF_ID = Some (VStr "AA:BB:CC:DD:EE:FF")
  /\ discovery_info (flow result) !! CONF_NAME = Some (VStr "Shapes 1A2B").
Proof.
  apply (zeroconf_duplicate_aborts shapes_advert
           (<["id" := VStr "AA:BB:CC:DD:EE:FF"]>
              (<["md" := VStr "NL42"]> (<["srcvers" := VStr "5.1.0"]> ∅)))
           (VStr "192.168.1.20") (VInt 16021)
           (VStr "_nanoleafapi._tcp.local.") (VStr "AA:BB:CC:DD:EE:FF")
           (VStr "NL42") (VStr "5.1.0") "Shapes 1A2B._nanoleafapi._tcp.local."
           eq_refl eq_refl eq_refl eq_refl eq_refl eq_refl eq_refl eq_refl
           (fun _ => Some "already_configured") device_offline new_flow
           "already_configured" eq_refl).
Defined.

Lemma discovery_then_pairing_creates_entry_witness :
  let discovered :=
    async_step_zeroconf (fun _ => None) (device_pairing "s3cr3t") new_flow
      shapes_advert in
  exists data,
    snd (async_step_zeroconf_confirm (device_pairing "s3cr3t")
           (flow discovered) (Some ∅))
    = inr (CreateEntry (VStr "Shapes 1A2B") data)
    /\ dom data
       = ({[ CONF_HOST; CONF_PORT; CONF_ID; CONF_NAME; CONF_TOKEN ]}
          : gset string)
    /\ data !! CONF_HOST = Some (VStr "192.168.1.20")
    /\ data !! CONF_PORT = Some (VInt 16021)
    /\ data !! CONF_ID = Some (VStr "AA:BB:CC:DD:EE:FF")
    /\ data !! CONF_NAME = Some (VStr "Shapes 1A2B")
    /\ data !! CONF_TOKEN = Some (VStr "s3cr3t").
Proof.
  apply (discovery_then_pairing_creates_entry shapes_advert
           (<["id" := VStr "AA:BB:CC:DD:EE:FF"]>
              (<["md" := VStr "NL42"]> (<["srcvers" := VStr "5.1.0"]> ∅)))
           (VStr "192.168.1.20") (VInt 16021)
           (VStr "_nanoleafapi._tcp.local.") (VStr "AA:BB:CC:DD:EE:FF")
           (VStr "NL42") (VStr "5.1.0") "Shapes 1A2B._nanoleafapi._tcp.local."
           eq_refl eq_refl eq_refl eq_refl eq_refl eq_refl eq_refl eq_refl
           (fun _ => None) (device_pairing "s3cr3t") ∅
           {| nl_host := VStr "192.168.1.20"; nl_port := VInt 16021;
              nl_token := VStr "s3cr3t" |} eq_refl eq_refl).
Defined.

(** What [read_discovery] raises is never the framework's abort. *)
Lemma read_discovery_never_aborts (discovery : ZeroconfInfo) (reason : string) :
  read_discovery discovery <> inl (AbortFlow reason).
Proof.
  unfold read_discovery, property, getitem.
  repeat match goal with
    | |- context [match ?x with _ => _ end] => destruct x
    end; discriminate.
Qed.

Lemma read_discovery_incomplete (discovery : ZeroconfInfo) :
  (exists key, key ∈ [CONF_HOST; CONF_PORT; CONF_TYPE; CONF_NAME]
               /\ zc_entries discovery !! key = None)
  \/ (exists key exn, key ∈ ["id"; "md"; "srcvers"]
                      /\ property discovery key = inl exn) ->
  exists exn, read_discovery discovery = inl exn.
Proof.
  unfold read_discovery, getitem.
  intros [(key & Hkey & Hnone)|(key & exn & Hkey & Hnone)].
  - rewrite !elem_of_cons in Hkey.
    destruct Hkey as [->|[->|[->|[->|Hkey]]]];
      [| | | |now apply elem_of_nil in Hkey];
      rewrite Hnone;
      repeat match goal with
        | |- context [match ?x with _ => _ end] => destruct x
        end; eauto.
  - rewrite !elem_of_cons in Hkey.
    destruct Hkey as [->|[->|[->|Hkey]]];
      [| | |now apply elem_of_nil in Hkey];
      rewrite Hnone;
      repeat match goal with
        | |- context [match ?x with _ => _ end] => destruct x
        end; eauto.
Qed.

(** X16: the discovery step needs every entry it reads, also the model
    (md) and the version (srcvers) that it only logs: when one of host,
    port, type, name, or one of the properties id, md, srcvers is missing,
    the step fails before anything is stored: the flow is unchanged, no
    unique id is set and the framework's duplicate check is not reached. *)
Theorem zeroconf_incomplete_record_fails
    (duplicate : PyVal -> option string)
    (authorize : Nanoleaf -> PyExn + Nanoleaf)
    (self : NanoleafConfigFlow) (discovery : ZeroconfInfo) :
  (exists key, key ∈ [CONF_HOST; CONF_PORT; CONF_TYPE; CONF_NAME]
               /\ zc_entries discovery !! key = None)
  \/ (exists key exn, key ∈ ["id"; "md"; "srcvers"]
                      /\ property discovery key = inl exn) ->
  let result := async_step_zeroconf duplicate authorize self discovery in
  exists exn,
    step result = inl exn
    /\ (forall reason, exn <> AbortFlow reason)
    /\ flow result = self
    /\ unique_id_set result = None
    /\ title_placeholders result = None.
Proof.
  intros Hmissing. cbn zeta.
  destruct (read_discovery_incomplete discovery Hmissing) as [exn Hread].
  unfold async_step_zeroconf. rewrite Hread. cbn.
  exists exn. repeat split.
  intros reason ->. exact (read_discovery_never_aborts _ _ Hread).
Qed.

Lemma zeroconf_incomplete_record_fails_witness :
  let result :=
    async_step_zeroconf (fun _ => None) device_offline discovered_shapes
      advert_without_version in
  exists exn,
    step result = inl exn
    /\ (forall reason, exn <> AbortFlow reason)
    /\ flow result = discovered_shapes
    /\ unique_id_set result = None
    /\ title_placeholders result = None.
Proof.
  apply (zeroconf_incomplete_record_fails (fun _ => None) device_offline
           discovered_shapes advert_without_version).
  right. exists "srcvers", (KeyError "srcvers"). split; [|reflexivity].
  rewrite !elem_of_cons. auto.
Defined.

(** X17: when the advertised name is a name without dot followed by a dot
    and the advertised type, the discovery step stores the name without
    that suffix. *)
Theorem zeroconf_strips_type_suffix
    (duplicate : PyVal -> option string)
    (authorize : Nanoleaf -> PyExn + Nanoleaf)
    (self : NanoleafConfigFlow) (discovery : ZeroconfInfo)
    (properties : gmap string PyVal)
    (host port id md version : PyVal) (short zctype : string) :
  zc_entries discovery !! CONF_HOST = Some host ->
  zc_entries discovery !! CONF_PORT = Some port ->
  zc_entries discovery !! CONF_TYPE = Some (VStr zctype) ->
  zc_entries discovery !! CONF_NAME
  = Some (VStr (String.append short (String.append "." zctype))) ->
  zc_properties discovery = Some properties ->
  properties !! "id" = Some id ->
  properties !! "md" = Some md ->
  properties !! "srcvers" = Some version ->
  free_of "."%char short = true ->
  discovery_info (flow (async_step_zeroconf duplicate authorize self discovery))
  !! CONF_NAME = Some (VStr short).
Proof.
  intros Hhost Hport Htype Hname Hprops Hid Hmd Hver Hfree.
  unfold async_step_zeroconf.
  rewrite (read_discovery_complete discovery properties host port
             (VStr zctype) id md version _ Hhost Hport Htype Hname Hprops
             Hid Hmd Hver).
  cbn [py_str].
  change (String.append "." zctype) with (String "."%char zctype).
  rewrite (str_replace_suffix "."%char short zctype Hfree).
  destruct (duplicate id); cbn; simplify_map_eq; reflexivity.
Qed.

Lemma zeroconf_strips_type_suffix_witness :
  discovery_info
    (flow (async_step_zeroconf (fun _ => None) device_offline new_flow
             shapes_advert))
  !! CONF_NAME = Some (VStr "Shapes 1A2B").
Proof.
  apply (zeroconf_strips_type_suffix (fun _ => None) device_offline new_flow
           shapes_advert
           (<["id" := VStr "AA:BB:CC:DD:EE:FF"]>
              (<["md" := VStr "NL42"]> (<["srcvers" := VStr "5.1.0"]> ∅)))
           (VStr "192.168.1.20") (VInt 16021) (VStr "AA:BB:CC:DD:EE:FF")
           (VStr "NL42") (VStr "5.1.0") "Shapes 1A2B"
           "_nanoleafapi._tcp.local."); reflexivity.
Defined.

(** ** The confirmation step: failures and retries *)

(** X18: the confirmation step looks up the host and then the port before
    it contacts the device: when one of them is missing it raises the
    [KeyError] for it, whatever the device would have answered, and the
    flow is unchanged.  Without user input it shows the form with no error
    even on an empty flow. *)
Theorem zeroconf_confirm_needs_host_and_port
    (authorize : Nanoleaf -> PyExn + Nanoleaf)
    (self : NanoleafConfigFlow) (user_input : gmap string PyVal) :
  (discovery_info self !! CONF_HOST = None ->
     async_step_zeroconf_confirm authorize self (Some user_input)
     = (self, inl (KeyError CONF_HOST)))
  /\ (forall host,
        discovery_info self !! CONF_HOST = Some host ->
        discovery_info self !! CONF_PORT = None ->
        async_step_zeroconf_confirm authorize self (Some user_input)
        = (self, inl (KeyError CONF_PORT)))
  /\ async_step_zeroconf_confirm authorize self None
     = (self, inr (ShowForm "zeroconf_confirm" (discovery_info self) ∅)).
Proof.
  unfold async_step_zeroconf_confirm, getitem. split; [|split].
  - intros ->. reflexivity.
  - intros host -> ->. reflexivity.
  - reflexivity.
Qed.

Lemma zeroconf_confirm_needs_host_and_port_witness :
  async_step_zeroconf_confirm (device_pairing "s3cr3t") new_flow (Some ∅)
  = (new_flow, inl (KeyError CONF_HOST))
  /\ async_step_zeroconf_confirm (device_pairing "s3cr3t")
       {| discovery_info := {[ CONF_HOST := VStr "192.168.1.20" ]} |} (Some ∅)
     = ({| discovery_info := {[ CONF_HOST := VStr "192.168.1.20" ]} |},
        inl (KeyError CONF_PORT)).
Proof.
  split.
  - apply (proj1 (zeroconf_confirm_needs_host_and_port
                    (device_pairing "s3cr3t") new_flow ∅)).
    reflexivity.
  - apply (proj1 (proj2 (zeroconf_confirm_needs_host_and_port
                    (device_pairing "s3cr3t")
                    {| discovery_info := {[ CONF_HOST := VStr "192.168.1.20" ]} |}
                    ∅)) (VStr "192.168.1.20")); reflexivity.
Defined.

(** X19: an attempt that the device does not authorize leaves the flow as
    it was: the two pynanoleaf errors show the form again, every other
    exception leaves the method; so the next attempt behaves as if the
    failed one had not happened. *)
Theorem zeroconf_confirm_failure_keeps_flow
    (authorize : Nanoleaf -> PyExn + Nanoleaf)
    (self : NanoleafConfigFlow) (user_input : gmap string PyVal)
    (host port : PyVal) (exn : PyExn) :
  discovery_info self !! CONF_HOST = Some host ->
  discovery_info self !! CONF_PORT = Some port ->
  authorize (Nanoleaf_new host port) = inl exn ->
  fst (async_step_zeroconf_confirm authorize self (Some user_input)) = self
  /\ ((forall msg, exn <> NotAuthorizingNewTokens msg) ->
      (forall msg, exn <> Unavailable msg) ->
      snd (async_step_zeroconf_confirm authorize self (Some user_input))
      = inl exn)
  /\ forall authorize' user_input',
       async_step_zeroconf_confirm authorize'
         (fst (async_step_zeroconf_confirm authorize self (Some user_input)))
         user_input'
       = async_step_zeroconf_confirm authorize' self user_input'.
Proof.
  intros Hhost Hport Hauth.
  assert (Hkeep : fst (async_step_zeroconf_confirm authorize self
                         (Some user_input)) = self).
  { unfold async_step_zeroconf_confirm, try_authorize.
    rewrite (getitem_Some _ _ _ Hhost), (getitem_Some _ _ _ Hport), Hauth.
    destruct exn; try reflexivity;
      rewrite bool_decide_eq_true_2 by apply insert_non_empty; reflexivity. }
  split; [exact Hkeep|]. split.
  - intros Hna Hun.
    unfold async_step_zeroconf_confirm, try_authorize.
    rewrite (getitem_Some _ _ _ Hhost), (getitem_Some _ _ _ Hport), Hauth.
    destruct exn; try reflexivity.
    + exfalso. exact (Hun msg eq_refl).
    + exfalso. exact (Hna msg eq_refl).
  - intros authorize' user_input'. rewrite Hkeep. reflexivity.
Qed.

Lemma zeroconf_confirm_failure_keeps_flow_witness :
  let refuses (_ : Nanoleaf) : PyExn + Nanoleaf := inl (InvalidToken "401") in
  fst (async_step_zeroconf_confirm refuses discovered_shapes (Some ∅))
  = discovered_shapes
  /\ snd (async_step_zeroconf_confirm refuses discovered_shapes (Some ∅))
     = inl (InvalidToken "401").
Proof.
  cbn zeta.
  destruct (zeroconf_confirm_failure_keeps_flow
              (fun _ => inl (InvalidToken "401")) discovered_shapes ∅
              (VStr "192.168.1.20") (VInt 16021) (InvalidToken "401")
              eq_refl eq_refl eq_refl) as (Hkeep & Hraise & _).
  split; [exact Hkeep|]. apply Hraise; intros msg; discriminate.
Defined.

(** X20: when the device authorizes, the token is stored in the flow's own
    discovery dictionary, which is the entry data: every other key keeps
    its value and a token stored earlier is replaced.  This has happened
    also when the entry cannot be created because the name is missing: the
    step then raises the [KeyError] for the name. *)
Theorem zeroconf_confirm_stores_token
    (authorize : Nanoleaf -> PyExn + Nanoleaf)
    (self : NanoleafConfigFlow) (user_input : gmap string PyVal)
    (host port : PyVal) (nanoleaf : Nanoleaf) :
  discovery_info self !! CONF_HOST = Some host ->
  discovery_info self !! CONF_PORT = Some port ->
  authorize (Nanoleaf_new host port) = inr nanoleaf ->
  let result := async_step_zeroconf_confirm authorize self (Some user_input) in
  discovery_info (fst result) !! CONF_TOKEN = Some (nl_token nanoleaf)
  /\ (forall key, key <> CONF_TOKEN ->
        discovery_info (fst result) !! key = discovery_info self !! key)
  /\ (forall title data, snd result = inr (CreateEntry title data) ->
        data = discovery_info (fst result))
  /\ (discovery_info self !! CONF_NAME = None ->
        snd result = inl (KeyError CONF_NAME)).
Proof.
  intros Hhost Hport Hauth. cbn zeta.
  unfold async_step_zeroconf_confirm, try_authorize.
  rewrite (getitem_Some _ _ _ Hhost), (getitem_Some _ _ _ Hport), Hauth.
  rewrite bool_decide_eq_false_2 by (intros Hne; now apply Hne).
  cbn [fst snd discovery_info]. split; [|split; [|split]].
  - apply lookup_insert_eq.
  - intros key Hkey. apply lookup_insert_ne. congruence.
  - unfold _entry_from_data. intros title data.
    destruct (getitem _ CONF_NAME); [discriminate|].
    intros [= _ <-]. reflexivity.
  - intros Hname. unfold _entry_from_data, getitem.
    rewrite lookup_insert_ne by discriminate. rewrite Hname. reflexivity.
Qed.

Lemma zeroconf_confirm_stores_token_witness :
  let result :=
    async_step_zeroconf_confirm (device_pairing "s3cr3t") discovered_shapes
      (Some ∅) in
  discovery_info (fst result) !! CONF_TOKEN = Some (VStr "s3cr3t")
  /\ (forall key, key <> CONF_TOKEN ->
        discovery_info (fst result) !! key
        = discovery_info discovered_shapes !! key)
  /\ (forall title data, snd result = inr (CreateEntry title data) ->
        data = discovery_info (fst result))
  /\ (discovery_info discovered_shapes !! CONF_NAME = None ->
        snd result = inl (KeyError CONF_NAME)).
Proof.
  apply (zeroconf_confirm_stores_token (device_pairing "s3cr3t")
           discovered_shapes ∅ (VStr "192.168.1.20") (VInt 16021)
           {| nl_host := VStr "192.168.1.20"; nl_port := VInt 16021;
              nl_token := VStr "s3cr3t" |}); reflexivity.
Defined.

(** ** Setting the integration up and removing it *)

Lemma read_config_complete (config : ConfigEntry) (name host port token : PyVal) :
  data config !! CONF_NAME = Some name ->
  data config !! CONF_HOST = Some host ->
  data config !! CONF_PORT = Some port ->
  data config !! CONF_TOKEN = Some token ->
  read_config config = inr (name, host, port, token).
Proof.
  intros Hname Hhost Hport Htoken. unfold read_config.
  rewrite (getitem_Some _ _ _ Hname), (getitem_Some _ _ _ Hhost),
    (getitem_Some _ _ _ Hport), (getitem_Some _ _ _ Htoken).
  reflexivity.
Qed.

(** X21: [async_setup] only makes sure the domain has a dictionary in
    [hass.data]: entries registered there before are kept, a second run
    changes nothing, and no platform set-up is scheduled. *)
Theorem async_setup_keeps_entries `{Const} (hass : HomeAssistant) :
  (forall entries, hass_data hass !! DOMAIN = Some entries ->
     fst (async_setup hass) = hass)
  /\ (hass_data hass !! DOMAIN = None ->
      hass_data (fst (async_setup hass)) !! DOMAIN = Some ∅)
  /\ (forall domain, domain <> DOMAIN ->
        hass_data (fst (async_setup hass)) !! domain
        = hass_data hass !! domain)
  /\ fst (async_setup (fst (async_setup hass))) = fst (async_setup hass)
  /\ snd (async_setup hass) = true.
Proof.
  unfold async_setup. cbn [fst snd hass_data forwarded].
  split; [|split; [|split; [|split; [|reflexivity]]]].
  - intros entries ->. destruct hass; reflexivity.
  - intros ->. apply lookup_insert_eq.
  - intros domain Hne. destruct (hass_data hass !! DOMAIN); [reflexivity|].
    apply lookup_insert_ne. congruence.
  - destruct (hass_data hass !! DOMAIN) eqn:Hd.
    + rewrite Hd. reflexivity.
    + rewrite lookup_insert_eq. reflexivity.
Qed.

Lemma async_setup_keeps_entries_witness :
  let hass :=
    fst (async_setup_entry (H := nanoleaf_const)
           (fst (async_setup (H := nanoleaf_const) empty_hass)) shapes_entry) in
  fst (async_setup (H := nanoleaf_const) hass) = hass
  /\ hass_data (fst (async_setup (H := nanoleaf_const) empty_hass))
     !! "nanoleaf" = Some ∅.
Proof.
  cbn zeta. split.
  - eapply (proj1 (async_setup_keeps_entries (H := nanoleaf_const) _)).
    reflexivity.
  - apply (proj1 (proj2 (async_setup_keeps_entries (H := nanoleaf_const)
                           empty_hass))).
    reflexivity.
Defined.

(** X22: after [async_setup], [async_setup_entry] on an entry that holds
    name, host, port and token returns [True], schedules the set-up of
    every platform of [PLATFORMS], in order, after those scheduled before,
    and leaves the other entries and domains of [hass.data] as they were;
    the light platform then hands exactly one light to the host, built
    from the client for that host, port and token and from that name, to
    be updated before it is added (the two keys of the per-entry
    dictionary being different). *)
Theorem setup_entry_then_light `{Const}
    (hass : HomeAssistant) (config : ConfigEntry)
    (name host port token : PyVal) :
  DATA_NAME <> DATA_NANOLEAF ->
  data config !! CONF_NAME = Some name ->
  data config !! CONF_HOST = Some host ->
  data config !! CONF_PORT = Some port ->
  data config !! CONF_TOKEN = Some token ->
  let result := async_setup_entry (fst (async_setup hass)) config in
  snd result = inr true
  /\ forwarded (fst result)
     = forwarded hass ++ map (fun platform => (entry_id config, platform)) PLATFORMS
  /\ Light.async_setup_entry (fst result) config
     = inr ([(ClientDatum (Nanoleaf_with_token host port token),
              NameDatum name)], true)
  /\ (forall other, entry_id other <> entry_id config ->
        Light.async_setup_entry (fst result) other
        = Light.async_setup_entry (fst (async_setup hass)) other)
  /\ (forall domain, domain <> DOMAIN ->
        hass_data (fst result) !! domain = hass_data hass !! domain).
Proof.
  intros Hkeys Hname Hhost Hport Htoken. cbn zeta.
  unfold async_setup_entry.
  rewrite (read_config_complete config name host port token) by assumption.
  assert (Hdomain : exists entries,
            hass_data (fst (async_setup hass)) !! DOMAIN = Some entries).
  { unfold async_setup. cbn [fst hass_data].
    destruct (hass_data hass !! DOMAIN) eqn:Hd; [eauto|].
    rewrite lookup_insert_eq. eauto. }
  destruct Hdomain as [entries Hentries]. rewrite Hentries.
  cbn [fst snd forwarded hass_data].
  split; [reflexivity|]. split; [reflexivity|]. split; [|split].
  - unfold Light.async_setup_entry. cbn [hass_data].
    rewrite !lookup_insert_eq.
    rewrite lookup_insert_ne by congruence.
    rewrite lookup_insert_eq. reflexivity.
  - intros other Hother. unfold Light.async_setup_entry. cbn [hass_data].
    rewrite lookup_insert_eq, Hentries.
    rewrite lookup_insert_ne by congruence. reflexivity.
  - intros domain Hne. rewrite lookup_insert_ne by congruence.
    unfold async_setup. cbn [fst hass_data].
    destruct (hass_data hass !! DOMAIN); [reflexivity|].
    apply lookup_insert_ne. congruence.
Qed.

Lemma setup_entry_then_light_witness :
  let result :=
    async_setup_entry (H := nanoleaf_const)
      (fst (async_setup (H := nanoleaf_const) empty_hass)) shapes_entry in
  snd result = inr true
  /\ forwarded (fst result) = [("0a1b2c", "light")]
  /\ Light.async_setup_entry (H := nanoleaf_const) (fst result) shapes_entry
     = inr ([(ClientDatum (Nanoleaf_with_token (VStr "192.168.1.20")
                             (VInt 16021) (VStr "s3cr3t")),
              NameDatum (VStr "Shapes 1A2B"))], true).
Proof.
  cbn zeta.
  destruct (setup_entry_then_light (H := nanoleaf_const) empty_hass shapes_entry
              (VStr "Shapes 1A2B") (VStr "192.168.1.20") (VInt 16021)
              (VStr "s3cr3t")) as (Hret & Hfwd & Hlight & _);
    try reflexivity; [discriminate|].
  split; [exact Hret|]. split; [exact Hfwd|exact Hlight].
Defined.

(** X23: [async_setup_entry] stores nothing and schedules nothing when it
    fails: on an entry without name, host, port or token it raises the
    [KeyError] of the first of them that is missing, in this order, and
    when [async_setup] has not run (no dictionary for the domain) it raises
    the [KeyError] for the domain. *)
Theorem setup_entry_failures `{Const}
    (hass : HomeAssistant) (config : ConfigEntry) :
  (forall exn, snd (async_setup_entry hass config) = inl exn ->
     fst (async_setup_entry hass config) = hass)
  /\ (data config !! CONF_NAME = None ->
      snd (async_setup_entry hass config) = inl (KeyError CONF_NAME))
  /\ (forall name host port token,
        data config !! CONF_NAME = Some name ->
        data config !! CONF_HOST = Some host ->
        data config !! CONF_PORT = Some port ->
        ((data config !! CONF_TOKEN = None ->
          snd (async_setup_entry hass config) = inl (KeyError CONF_TOKEN))
         /\ (data config !! CONF_TOKEN = Some token ->
             hass_data hass !! DOMAIN = None ->
             snd (async_setup_entry hass config) = inl (KeyError DOMAIN)))).
Proof.
  split; [|split].
  - intros exn. unfold async_setup_entry.
    destruct (read_config config) as [|[[[name host] port] token]];
      [reflexivity|].
    destruct (hass_data hass !! DOMAIN); [discriminate|reflexivity].
  - intros Hname. unfold async_setup_entry, read_config, getitem.
    rewrite Hname. reflexivity.
  - intros name host port token Hname Hhost Hport. split.
    + intros Htoken. unfold async_setup_entry, read_config, getitem.
      rewrite Hname, Hhost, Hport, Htoken. reflexivity.
    + intros Htoken Hdomain. unfold async_setup_entry.
      rewrite (read_config_complete config name host port token) by assumption.
      rewrite Hdomain. reflexivity.
Qed.

Lemma setup_entry_failures_witness :
  snd (async_setup_entry (H := nanoleaf_const) empty_hass shapes_entry)
  = inl (KeyError "nanoleaf")
  /\ fst (async_setup_entry (H := nanoleaf_const) empty_hass shapes_entry)
     = empty_hass.
Proof.
  split.
  - apply (proj2 (proj2 (proj2 (setup_entry_failures (H := nanoleaf_const)
             empty_hass shapes_entry)) (VStr "Shapes 1A2B")
             (VStr "192.168.1.20") (VInt 16021) (VStr "s3cr3t")
             eq_refl eq_refl eq_refl)); reflexivity.
  - apply (proj1 (setup_entry_failures (H := nanoleaf_const) empty_hass
                    shapes_entry) (KeyError "nanoleaf")).
    reflexivity.
Defined.

(** X24: removing an entry that holds name, host, port and token asks the
    device to delete the token through a client for exactly that host,
    port and token, the client [async_setup_entry] registers for the
    entry.  [InvalidToken] and [Unavailable] do not leave the method: each
    is answered by one error record; any other exception leaves it,
    unlogged. *)
Theorem remove_entry_never_blocks
    (delete_token : Nanoleaf -> PyExn + unit) (config : ConfigEntry)
    (name host port token : PyVal) :
  data config !! CONF_NAME = Some name ->
  data config !! CONF_HOST = Some host ->
  data config !! CONF_PORT = Some port ->
  data config !! CONF_TOKEN = Some token ->
  let nanoleaf := Nanoleaf_with_token host port token in
  let result := async_remove_entry delete_token config in
  result = async_remove_entry (fun _ => delete_token nanoleaf) config
  /\ (forall done, delete_token nanoleaf = inr done ->
        result = {| removal_log := []; removal_escaped := None |})
  /\ (forall exn, delete_token nanoleaf = inl exn ->
        ((exists msg, exn = InvalidToken msg) \/ (exists msg, exn = Unavailable msg)) ->
        removal_escaped result = None
        /\ exists record, removal_log result = [record])
  /\ (forall exn, delete_token nanoleaf = inl exn ->
        (forall msg, exn <> InvalidToken msg) ->
        (forall msg, exn <> Unavailable msg) ->
        result = {| removal_log := []; removal_escaped := Some exn |}).
Proof.
  intros Hname Hhost Hport Htoken. cbn zeta. unfold async_remove_entry.
  rewrite (read_config_complete config name host port token) by assumption.
  split; [reflexivity|]. split; [|split].
  - intros done ->. reflexivity.
  - intros exn -> [[msg ->]|[msg ->]]; eauto.
  - intros exn -> Hit Hun. destruct exn; try reflexivity.
    + exfalso. exact (Hun msg eq_refl).
    + exfalso. exact (Hit msg eq_refl).
Qed.

Lemma remove_entry_never_blocks_witness :
  let gone (_ : Nanoleaf) : PyExn + unit := inl (Unavailable "timed out") in
  removal_escaped (async_remove_entry gone shapes_entry) = None
  /\ exists record, removal_log (async_remove_entry gone shapes_entry) = [record].
Proof.
  cbn zeta.
  apply (proj1 (proj2 (proj2 (remove_entry_never_blocks
           (fun _ => inl (Unavailable "timed out")) shapes_entry
           (VStr "Shapes 1A2B") (VStr "192.168.1.20") (VInt 16021)
           (VStr "s3cr3t") eq_refl eq_refl eq_refl eq_refl)))
           (Unavailable "timed out") eq_refl).
  right. exists "timed out". reflexivity.
Defined.

(** X25: removing an entry that lacks one of name, host, port and token
    raises the [KeyError] for it, without contacting the device and
    without logging. *)
Theorem remove_entry_incomplete_config (config : ConfigEntry) (key : string) :
  key ∈ [CONF_NAME; CONF_HOST; CONF_PORT; CONF_TOKEN] ->
  data config !! key = None ->
  exists missing,
    missing ∈ [CONF_NAME; CONF_HOST; CONF_PORT; CONF_TOKEN]
    /\ data config !! missing = None
    /\ forall delete_token,
         async_remove_entry delete_token config
         = {| removal_log := []; removal_escaped := Some (KeyError missing) |}.
Proof.
  intros Hkey Hnone. unfold async_remove_entry, read_config, getitem.
  destruct (data config !! CONF_NAME) eqn:Hname;
    [|exists CONF_NAME; rewrite !elem_of_cons; auto 10].
  destruct (data config !! CONF_HOST) eqn:Hhost;
    [|exists CONF_HOST; rewrite !elem_of_cons; auto 10].
  destruct (data config !! CONF_PORT) eqn:Hport;
    [|exists CONF_PORT; rewrite !elem_of_cons; auto 10].
  destruct (data config !! CONF_TOKEN) eqn:Htoken;
    [|exists CONF_TOKEN; rewrite !elem_of_cons; auto 10].
  exfalso. rewrite !elem_of_cons in Hkey.
  destruct Hkey as [->|[->|[->|[->|Hkey]]]]; try congruence.
  now apply elem_of_nil in Hkey.
Qed.

Lemma remove_entry_incomplete_config_witness :
  exists missing,
    missing ∈ [CONF_NAME; CONF_HOST; CONF_PORT; CONF_TOKEN]
    /\ data entry_without_token !! missing = None
    /\ forall delete_token,
         async_remove_entry delete_token entry_without_token
         = {| removal_log := []; removal_escaped := Some (KeyError missing) |}.
Proof.
  apply (remove_entry_incomplete_config entry_without_token CONF_TOKEN).
  - rewrite !elem_of_cons. auto 10.
  - reflexivity.
Defined.

(** ** turn_on: the other arguments tested for their truth value *)

(** X26: a colour temperature of 0 and an empty effect name are taken as
    absent by [turn_on]: the empty name is not looked up in the effect list
    and raises nothing.  A hue and saturation pair is always applied, zeros
    included: with finite numbers both assignments are issued. *)
Theorem turn_on_falsy_arguments `{ColorUtil}
    (self : NanoleafLight) (kwargs : Kwargs) :
  turn_on self (with_color_temp kwargs (Some 0))
  = turn_on self (with_color_temp kwargs None)
  /\ turn_on self (with_effect kwargs (Some ""))
     = turn_on self (with_effect kwargs None)
  /\ (forall hue saturation h s,
        py_int hue = inr h -> py_int saturation = inr s ->
        exists rest,
          calls (turn_on self (with_hs_color kwargs (Some (hue, saturation))))
          = SetHue h :: SetSaturation s :: rest).
Proof.
  split; [reflexivity|]. split; [reflexivity|].
  intros hue saturation h s Hh Hs. unfold turn_on.
  cbn [with_hs_color ATTR_BRIGHTNESS ATTR_HS_COLOR ATTR_COLOR_TEMP
       ATTR_EFFECT ATTR_TRANSITION].
  rewrite Hh, Hs. rewrite calls_bind. cbn.
  eexists. reflexivity.
Qed.

Lemma turn_on_falsy_arguments_witness :
  exists rest,
    calls (turn_on (H := reciprocal_color_util) polled_light
             (with_hs_color no_kwargs (Some (0%float, 0%float))))
    = SetHue 0 :: SetSaturation 0 :: rest.
Proof.
  apply (proj2 (proj2 (turn_on_falsy_arguments (H := reciprocal_color_util)
           polled_light no_kwargs)) 0%float 0%float 0 0); reflexivity.
Defined.
